(** * EnrollmentController: a shallow embedding and its properties

    The controller of [src/app/controllers/EnrollmentController.js] is an
    Express handler class with four async methods.  Three of them ([store],
    [update], [delete]) change the enrollment table; they are embedded here
    as functions in a small monad that threads the database, records the
    calls made to the collaborators (Sequelize models and the mailer) and
    supports the early [return res.status(..).json(..)] of the source as well
    as a rejected [await]. *)

From Stdlib Require Import ZArith PrimFloat Uint63.
From stdpp Require Import base option list gmap fin_maps strings.

Set Warnings "-inexact-float".
Local Open Scope Z_scope.

(** ** Dates (date-fns) *)

Module DateFns.

(** A JavaScript [Date], kept as its calendar fields in the server's local
    time zone (taken to have a fixed offset from UTC): date-fns works on
    these fields through [getMonth], [getDate], [setMinutes] and the like.
    [month] is the calendar month, 1 to 12. *)
Record DateTime : Type := mkDate {
  year : Z;
  month : Z;
  day : Z;
  hours : Z;
  minutes : Z;
  seconds : Z;
  milliseconds : Z
}.

Definition isLeapYear (y : Z) : bool :=
  (y mod 4 =? 0) && (negb (y mod 100 =? 0) || (y mod 400 =? 0)).

Definition getDaysInMonth (y m : Z) : Z :=
  match m with
  | 2 => if isLeapYear y then 29 else 28
  | 4 | 6 | 9 | 11 => 30
  | _ => 31
  end.

(** A well-formed calendar date and time of day. *)
Definition validDate (d : DateTime) : bool :=
  (1 <=? month d) && (month d <=? 12) &&
  (1 <=? day d) && (day d <=? getDaysInMonth (year d) (month d)) &&
  (0 <=? hours d) && (hours d <? 24) &&
  (0 <=? minutes d) && (minutes d <? 60) &&
  (0 <=? seconds d) && (seconds d <? 60) &&
  (0 <=? milliseconds d) && (milliseconds d <? 1000).

(** Modelled from the spec: date-fns is a dependency and not part of the
    sources.  [parseISO] "parses startDateRaw as an ISO-8601 date-time".  A
    request body is kept with its date string already read (see [Body]
    below), so on this model parsing hands back the date it is given. *)
Definition parseISO (argument : DateTime) : DateTime := argument.

(** Modelled from the spec: date-fns [startOfHour] "truncates to the start
    of the hour (minutes/seconds/ms zeroed)". *)
Definition startOfHour (d : DateTime) : DateTime :=
  {| year := year d; month := month d; day := day d; hours := hours d;
     minutes := 0; seconds := 0; milliseconds := 0 |}.

(** Modelled from the spec: date-fns [addMonths], "calendar-month
    arithmetic (day-of-month preserved where possible ...): adding N months
    to a date rolls the month field forward N times, clamping day overflow
    to the last valid day of the resulting month".  The time of day is
    kept. *)
Definition addMonths (d : DateTime) (amount : Z) : DateTime :=
  let desiredMonth := year d * 12 + (month d - 1) + amount in
  let y := desiredMonth / 12 in
  let m := desiredMonth mod 12 + 1 in
  {| year := y; month := m; day := Z.min (day d) (getDaysInMonth y m);
     hours := hours d; minutes := minutes d; seconds := seconds d;
     milliseconds := milliseconds d |}.

(** Days from 1970-01-01 to the given calendar day (proleptic Gregorian
    calendar). *)
Definition daysFromCivil (y m d : Z) : Z :=
  let y' := if m <=? 2 then y - 1 else y in
  let era := y' / 400 in
  let yoe := y' - era * 400 in
  let mp := if 2 <? m then m - 3 else m + 9 in
  let doy := (153 * mp + 2) / 5 + d - 1 in
  let doe := yoe * 365 + yoe / 4 - yoe / 100 + doy in
  era * 146097 + doe - 719468.

(** [Date.prototype.getTime]: milliseconds on the local time line. *)
Definition getTime (d : DateTime) : Z :=
  daysFromCivil (year d) (month d) (day d) * 86400000
  + hours d * 3600000 + minutes d * 60000 + seconds d * 1000
  + milliseconds d.

(** Modelled from the spec: date-fns [isBefore], "strictly before". *)
Definition isBefore (date dateToCompare : DateTime) : bool :=
  getTime date <? getTime dateToCompare.

End DateFns.

Import DateFns.

(** ** Numbers *)

(** A JavaScript number is an IEEE 754 binary64 value; [*] on numbers is
    [PrimFloat.mul].  An INTEGER column read back from the database is the
    number with that value (exact below 2^53). *)
Definition number_of_Z (z : Z) : float :=
  if z <? 0 then PrimFloat.opp (PrimFloat.of_uint63 (Uint63.of_Z (- z)))
  else PrimFloat.of_uint63 (Uint63.of_Z z).

(** ** The models *)

Module Student.
Record t : Type := mk { name : string; email : string }.
End Student.

Module Plan.
Record t : Type := mk { title : string; price : float; duration : Z }.
End Plan.

Module Enrollment.
(** The attributes the controller hands to [create] and [update]. *)
Record values : Type := mkValues {
  student_id : Z;
  plan_id : Z;
  start_date : DateTime;
  end_date : DateTime;
  price : float
}.

(** A model instance: the primary key and the attributes of its row. *)
Record t : Type := mk { id : Z; dataValues : values }.
End Enrollment.

Module Mail.
(** The [context] of the enrollment template.  The two dates are what the
    source passes to [format]; their rendering in the pt locale is not
    modelled. *)
Record context : Type := mkContext {
  student : string;
  start : DateTime;
  plan : string;
  price : float;
  end_ : DateTime
}.

Record message : Type := mkMessage {
  to : string;
  subject : string;
  template : string;
  ctx : context
}.
End Mail.

(** ** The database and the handler monad *)

(** Tables are keyed by primary key. *)
Record Db : Type := mkDb {
  students : gmap Z Student.t;
  plans : gmap Z Plan.t;
  enrollments : gmap Z Enrollment.values
}.

(** Calls to the collaborators, in the order they are made. *)
Inductive Call : Type :=
| CallEnrollmentFindOne (student_id : Z)
| CallStudentFindByPk (pk : Z)
| CallPlanFindByPk (pk : Z)
| CallEnrollmentCreate (v : Enrollment.values)
| CallEnrollmentUpdate (pk : Z) (v : Enrollment.values)
| CallEnrollmentDestroy (student_id : Z)
| CallSendMail (m : Mail.message).

Inductive ResBody : Type :=
| JsonError (error : string)
| JsonEnrollment (e : Enrollment.t).

(** What [res.status(n).json(b)] sends. *)
Record Response : Type := mkResponse { status : Z; body : ResBody }.

(** Why an awaited promise rejected. *)
Inductive Rejection : Type :=
| MailRejected (m : Mail.message).

(** One statement of an async function either goes on with a value, leaves
    the function with [return res....json(..)], or throws because an awaited
    promise rejected. *)
Inductive Flow (A : Type) : Type :=
| Continue (a : A)
| Return_ (r : Response)
| Throw (e : Rejection).
Arguments Continue {A} a.
Arguments Return_ {A} r.
Arguments Throw {A} e.

Definition Async (A : Type) : Type := Db → Flow A * Db * list Call.

Definition ret {A} (a : A) : Async A := λ db, (Continue a, db, []).

Definition bind {A B} (m : Async A) (k : A → Async B) : Async B :=
  λ db,
    match m db with
    | (Continue a, db1, c1) =>
        match k a db1 with
        | (f, db2, c2) => (f, db2, c1 ++ c2)
        end
    | (Return_ r, db1, c1) => (Return_ r, db1, c1)
    | (Throw e, db1, c1) => (Throw e, db1, c1)
    end.

Definition return_ {A} (r : Response) : Async A := λ db, (Return_ r, db, []).

Declare Scope async_scope.
Delimit Scope async_scope with async.
Notation "'const' x ':=' 'await' m ; k" := (bind m (λ x, k))
  (at level 10, x name, m at level 99, k at level 200,
   format "'[v' 'const'  x  ':='  'await'  m ; '/' k ']'") : async_scope.
Notation "'await' m ; k" := (bind m (λ _, k))
  (at level 10, m at level 99, k at level 200,
   format "'[v' 'await'  m ; '/' k ']'") : async_scope.

(** [res.json(b)] answers with status 200. *)
Definition res_json (b : ResBody) : Response := {| status := 200; body := b |}.
Definition res_status_json (n : Z) (b : ResBody) : Response :=
  {| status := n; body := b |}.

(** How a call of a handler ends: with the response it sent, or with the
    rejection of the promise the async method returned (nothing is sent by
    the controller then). *)
Inductive Outcome : Type :=
| Responded (r : Response)
| Rejected (e : Rejection).

Definition handle (h : Async Response) (db : Db) : Outcome * Db * list Call :=
  match h db with
  | (Continue r, db', c) => (Responded r, db', c)
  | (Return_ r, db', c) => (Responded r, db', c)
  | (Throw e, db', c) => (Rejected e, db', c)
  end.

(** ** The collaborators: Sequelize models and the mailer *)

(** The first row of the enrollment table that belongs to a student. *)
Definition rowOfStudent (sid : Z) (t : gmap Z Enrollment.values)
  : option Enrollment.t :=
  match find (λ kv, Enrollment.student_id kv.2 =? sid) (map_to_list t) with
  | Some (k, v) => Some (Enrollment.mk k v)
  | None => None
  end.

(** An unused primary key: one more than the largest key in use. *)
Definition nextKey (t : gmap Z Enrollment.values) : Z :=
  1 + foldr Z.max 0 (map_to_list t).*1.

Definition setEnrollments (db : Db) (t : gmap Z Enrollment.values) : Db :=
  {| students := students db; plans := plans db; enrollments := t |}.

Module StudentModel.
(** Modelled from the spec: the Student model is not part of the sources;
    "Repository: findStudent(id) -> Student?". *)
Definition findByPk (pk : Z) : Async (option Student.t) :=
  λ db, (Continue (students db !! pk), db, [CallStudentFindByPk pk]).
End StudentModel.

Module PlanModel.
(** Modelled from the spec: the Plan model is not part of the sources;
    "Repository: findPlan(id) -> Plan?". *)
Definition findByPk (pk : Z) : Async (option Plan.t) :=
  λ db, (Continue (plans db !! pk), db, [CallPlanFindByPk pk]).
End PlanModel.

Module EnrollmentModel.
(** Modelled from the spec: the Enrollment model is not part of the
    sources; "Repository: findEnrollmentByStudent(id) -> Enrollment?". *)
Definition findOne (student_id : Z) : Async (option Enrollment.t) :=
  λ db, (Continue (rowOfStudent student_id (enrollments db)), db,
         [CallEnrollmentFindOne student_id]).

(** Modelled from the spec: "createEnrollment(record) -> Enrollment"; the
    new row gets an unused primary key and holds the record as given. *)
Definition create (v : Enrollment.values) : Async Enrollment.t :=
  λ db,
    let k := nextKey (enrollments db) in
    (Continue (Enrollment.mk k v),
     setEnrollments db (<[k := v]> (enrollments db)),
     [CallEnrollmentCreate v]).

(** Modelled from the spec: "updateEnrollment(id, record) -> Enrollment";
    the row of the instance, found by its primary key, takes the record. *)
Definition update (inst : Enrollment.t) (v : Enrollment.values)
  : Async Enrollment.t :=
  λ db,
    let k := Enrollment.id inst in
    (Continue (Enrollment.mk k v),
     setEnrollments db (alter (λ _, v) k (enrollments db)),
     [CallEnrollmentUpdate k v]).

(** Modelled from the spec: "deleteEnrollment(id) -> void"; the source
    calls [destroy] with [where: { student_id }], which removes every row
    of that student. *)
Definition destroy (student_id : Z) : Async unit :=
  λ db,
    (Continue tt,
     setEnrollments db
       (filter (λ kv, Enrollment.student_id kv.2 ≠ student_id)
               (enrollments db)),
     [CallEnrollmentDestroy student_id]).
End EnrollmentModel.

Module MailLib.
(** Modelled from the spec: [lib/Mail] is not part of the sources;
    "Notifier: notifyEnrollmentCreated(student, plan, enrollment) -> void,
    may fail independently of persistence".  [transport] says for which
    messages the promise of [sendMail] is fulfilled; for the others it
    rejects. *)
Definition sendMail (transport : Mail.message → bool) (m : Mail.message)
  : Async unit :=
  λ db,
    if transport m then (Continue tt, db, [CallSendMail m])
    else (Throw (MailRejected m), db, [CallSendMail m]).
End MailLib.

(** ** The request *)

(** The fields the handlers read from [req.body].  [start_date] stands for
    the instant the ISO 8601 string of the body denotes, that is for
    [parseISO(start_date)]. *)
Record Body : Type := mkBody {
  start_date : DateTime;
  plan_id : Z;
  student_id : Z
}.

(** A request body either fails the Yup schema of the handler or carries
    the three fields.  (The schema of [update] also lets a body through that
    omits a field; such bodies are outside this model.) *)
Inductive Request : Type :=
| Malformed
| WellFormed (b : Body).

(** ** The controller *)

Module EnrollmentController.
Section Handlers.

(** [new Date()], the clock read by the past-date check. *)
Variable now : DateTime.
(** The mail transport behind [Mail.sendMail]. *)
Variable transport : Mail.message → bool.

Local Open Scope async_scope.

Definition store (req : Request) : Async Response :=
  match req with
  | Malformed =>
      return_ (res_status_json 400 (JsonError "Validation fails"))
  | WellFormed (mkBody start_date plan_id student_id) =>
      const studentEnrollment := await EnrollmentModel.findOne student_id;
      if studentEnrollment is Some _ then
        return_ (res_status_json 401
                   (JsonError "Student already has an enrollment"))
      else
      const student := await StudentModel.findByPk student_id;
      match student with
      | None => return_ (res_status_json 401 (JsonError "Student no exists"))
      | Some student =>
      const plan := await PlanModel.findByPk plan_id;
      match plan with
      | None =>
          return_ (res_status_json 401 (JsonError "The plan was not found."))
      | Some plan =>
      let startDate := startOfHour (parseISO start_date) in
      if isBefore startDate now then
        return_ (res_status_json 400
                   (JsonError "Past date are not permitted"))
      else
      let price := Plan.price plan in
      let duration := Plan.duration plan in
      let priceTotal := PrimFloat.mul price (number_of_Z duration) in
      let endDate := addMonths startDate duration in
      const enrollment := await EnrollmentModel.create
        {| Enrollment.student_id := student_id;
           Enrollment.plan_id := plan_id;
           Enrollment.start_date := start_date;
           Enrollment.end_date := endDate;
           Enrollment.price := priceTotal |};
      await MailLib.sendMail transport
        {| Mail.to :=
             Student.name student +:+ " <" +:+ Student.email student +:+ ">";
           Mail.subject := "Matricula concluida";
           Mail.template := "enrollment";
           Mail.ctx :=
             {| Mail.student := Student.name student;
                Mail.start :=
                  Enrollment.start_date (Enrollment.dataValues enrollment);
                Mail.plan := Plan.title plan;
                Mail.price :=
                  Enrollment.price (Enrollment.dataValues enrollment);
                Mail.end_ :=
                  Enrollment.end_date (Enrollment.dataValues enrollment)
             |} |};
      ret (res_json (JsonEnrollment enrollment))
      end
      end
  end.

Definition update (req : Request) : Async Response :=
  match req with
  | Malformed =>
      return_ (res_status_json 400 (JsonError "Validation fails"))
  | WellFormed (mkBody start_date plan_id student_id) =>
      const studentEnrollment := await EnrollmentModel.findOne student_id;
      match studentEnrollment with
      | None =>
          return_ (res_status_json 401
                     (JsonError "The student does not have enrollment"))
      | Some studentEnrollment =>
      const student := await StudentModel.findByPk student_id;
      match student with
      | None =>
          return_ (res_status_json 401
                     (JsonError "The Student was not found"))
      | Some student =>
      const plan := await PlanModel.findByPk plan_id;
      match plan with
      | None =>
          return_ (res_status_json 401 (JsonError "The plan was not found."))
      | Some plan =>
      let startDate := startOfHour (parseISO start_date) in
      if isBefore startDate now then
        return_ (res_status_json 400
                   (JsonError "Past date are not permitted"))
      else
      let price := Plan.price plan in
      let duration := Plan.duration plan in
      let priceTotal := PrimFloat.mul price (number_of_Z duration) in
      let endDate := addMonths startDate duration in
      const enrollment := await EnrollmentModel.update studentEnrollment
        {| Enrollment.student_id := student_id;
           Enrollment.plan_id := plan_id;
           Enrollment.start_date := start_date;
           Enrollment.end_date := endDate;
           Enrollment.price := priceTotal |};
      ret (res_json (JsonEnrollment enrollment))
      end
      end
      end
  end.

(** [destroy] is started without [await]; the calls of a client being
    sequential, the rows are gone before the next one is served. *)
Definition delete (student_id : Z) : Async Response :=
  const studentEnrollment := await EnrollmentModel.findOne student_id;
  match studentEnrollment with
  | None =>
      return_ (res_status_json 401
                 (JsonError "The student does not have enrollment"))
  | Some studentEnrollment =>
      await EnrollmentModel.destroy student_id;
      ret (res_json (JsonEnrollment studentEnrollment))
  end.

End Handlers.
End EnrollmentController.

(** ** The service level: error kinds, calls and runs *)

(** The error kinds of the specification, as the responses the source sends
    for them. *)
Definition InvalidInput : Response :=
  res_status_json 400 (JsonError "Validation fails").
Definition AlreadyEnrolled : Response :=
  res_status_json 401 (JsonError "Student already has an enrollment").
Definition NotEnrolled : Response :=
  res_status_json 401 (JsonError "The student does not have enrollment").
Definition PlanNotFound : Response :=
  res_status_json 401 (JsonError "The plan was not found.").
Definition PastDate : Response :=
  res_status_json 400 (JsonError "Past date are not permitted").

(** The two handlers that write an enrollment. *)
Inductive Method : Type := Store | Update.

Definition StudentNotFound (m : Method) : Response :=
  match m with
  | Store => res_status_json 401 (JsonError "Student no exists")
  | Update => res_status_json 401 (JsonError "The Student was not found")
  end.

Definition call (m : Method) (now : DateTime) (transport : Mail.message → bool)
    (b : Body) : Db → Outcome * Db * list Call :=
  match m with
  | Store => handle (EnrollmentController.store now transport (WellFormed b))
  | Update => handle (EnrollmentController.update now (WellFormed b))
  end.

(** A successful call answers 200 with the enrollment. *)
Definition ok (e : Enrollment.t) : Outcome :=
  Responded (res_json (JsonEnrollment e)).

(** Some row of the enrollment table belongs to the student. *)
Definition enrolled (sid : Z) (db : Db) : Prop :=
  ∃ k v, enrollments db !! k = Some v ∧ Enrollment.student_id v = sid.

(** At most one row of the enrollment table per student. *)
Definition onePerStudent (db : Db) : Prop :=
  ∀ i j v w,
    enrollments db !! i = Some v → enrollments db !! j = Some w →
    Enrollment.student_id v = Enrollment.student_id w → i = j.

(** The attributes [store] and [update] derive from the body and the plan. *)
Definition derived (b : Body) (p : Plan.t) : Enrollment.values :=
  {| Enrollment.student_id := student_id b;
     Enrollment.plan_id := plan_id b;
     Enrollment.start_date := start_date b;
     Enrollment.end_date := addMonths (startOfHour (start_date b)) (Plan.duration p);
     Enrollment.price := PrimFloat.mul (Plan.price p) (number_of_Z (Plan.duration p)) |}.

(** The message [store] sends for an enrollment. *)
Definition confirmation (s : Student.t) (p : Plan.t) (e : Enrollment.t)
  : Mail.message :=
  {| Mail.to := Student.name s +:+ " <" +:+ Student.email s +:+ ">";
     Mail.subject := "Matricula concluida";
     Mail.template := "enrollment";
     Mail.ctx :=
       {| Mail.student := Student.name s;
          Mail.start := Enrollment.start_date (Enrollment.dataValues e);
          Mail.plan := Plan.title p;
          Mail.price := Enrollment.price (Enrollment.dataValues e);
          Mail.end_ := Enrollment.end_date (Enrollment.dataValues e) |} |}.

(** The checks that [store] and [update] make before they look at the
    date: the student is not yet enrolled ([store]) or is enrolled
    ([update]), and the student and the plan exist. *)
Definition checksPass (m : Method) (b : Body) (db : Db) : Prop :=
  match m with
  | Store => ¬ enrolled (student_id b) db
  | Update => enrolled (student_id b) db
  end
  ∧ is_Some (students db !! student_id b)
  ∧ is_Some (plans db !! plan_id b).

(** Sequences of calls, each with the clock and the mail transport of its
    moment. *)
Inductive Op : Type :=
| OpStore (now : DateTime) (transport : Mail.message → bool) (req : Request)
| OpUpdate (now : DateTime) (req : Request)
| OpDelete (student_id : Z).

Definition step (db : Db) (op : Op) : Db :=
  match op with
  | OpStore now tr req => (handle (EnrollmentController.store now tr req) db).1.2
  | OpUpdate now req => (handle (EnrollmentController.update now req) db).1.2
  | OpDelete sid => (handle (EnrollmentController.delete sid) db).1.2
  end.

Definition run (ops : list Op) (db : Db) : Db := foldl step db ops.

(** Sample data for the examples. *)
Module Sample.
Definition ana : Student.t := Student.mk "Ana" "ana@example.org".
Definition gold : Plan.t := Plan.mk "Gold" 129.9%float 3.
Definition monthly : Plan.t := Plan.mk "Start" 100%float 1.
(** Student 7 and plans 1 and 2 exist; nobody is enrolled. *)
Definition db0 : Db :=
  mkDb {[ 7 := ana ]} (<[ 1 := monthly ]> {[ 2 := gold ]}) ∅.
Definition newYear : DateTime := mkDate 2024 1 1 0 0 0 0.
Definition midMarch : DateTime := mkDate 2024 3 15 10 47 33 0.
Definition up : Mail.message → bool := λ _, true.
Definition down : Mail.message → bool := λ _, false.

(** Student 7 asks for plan 2 from 2024-03-15 10:47:33 on. *)
Definition body : Body := mkBody midMarch 2 7.
(** The enrollment that [store] makes of it ... *)
Definition values1 : Enrollment.values :=
  Enrollment.mkValues 7 2 midMarch (mkDate 2024 6 15 10 0 0 0)
    389.70000000000005%float.
Definition e1 : Enrollment.t := Enrollment.mk 1 values1.
(** ... the database after it ... *)
Definition db1 : Db := setEnrollments db0 {[ 1 := values1 ]}.
(** ... and the calls it makes. *)
Definition mail1 : Mail.message := confirmation ana gold e1.
Definition calls1 : list Call :=
  [CallEnrollmentFindOne 7; CallStudentFindByPk 7; CallPlanFindByPk 2;
   CallEnrollmentCreate values1; CallSendMail mail1].

(** Student 7 moves to plan 1 from the last day of January 2025 on. *)
Definition body2 : Body := mkBody (mkDate 2025 1 31 18 30 0 0) 1 7.
Definition values2 : Enrollment.values :=
  Enrollment.mkValues 7 1 (mkDate 2025 1 31 18 30 0 0)
    (mkDate 2025 2 28 18 0 0 0) 100%float.
Definition e2 : Enrollment.t := Enrollment.mk 1 values2.
Definition db2 : Db := setEnrollments db0 {[ 1 := values2 ]}.
Definition calls2 : list Call :=
  [CallEnrollmentFindOne 7; CallStudentFindByPk 7; CallPlanFindByPk 1;
   CallEnrollmentUpdate 1 values2].

(** A later clock, for which [midMarch] is in the past. *)
Definition nextYear : DateTime := mkDate 2025 1 1 0 0 0 0.
(** A database without students and plans. *)
Definition bare : Db := mkDb ∅ ∅ ∅.
(** Calls of all three handlers, some of them failing. *)
Definition session : list Op :=
  [OpStore newYear up (WellFormed body);
   OpStore newYear down (WellFormed body2);
   OpUpdate newYear (WellFormed body2);
   OpUpdate newYear Malformed;
   OpDelete 7;
   OpDelete 7;
   OpStore newYear down (WellFormed body2)].
End Sample.

(** ** The listing *)

(** The attributes [index] asks for of the student and of the plan of an
    enrollment: [['id', 'name', 'email']] and [['id', 'title',
    'duration']]. *)
Module IncludedStudent.
Record t : Type := mk { id : Z; name : string; email : string }.
End IncludedStudent.

Module IncludedPlan.
Record t : Type := mk { id : Z; title : string; duration : Z }.
End IncludedPlan.

(** An element of the array [index] answers with: an enrollment with its
    [student] and its [plan]. *)
Module Listed.
Record t : Type := mk {
  enrollment : Enrollment.t;
  student : option IncludedStudent.t;
  plan : option IncludedPlan.t
}.
End Listed.

Module EnrollmentQuery.
(** Modelled from the spec: the Enrollment model and its associations are
    not part of the sources; "listEnrollments() -> [Enrollment] (each joined
    with student/plan projections)".  An enrollment whose student or plan
    row is missing is listed without it. *)
Definition findAll (db : Db) : list Listed.t :=
  (λ kv : Z * Enrollment.values,
     {| Listed.enrollment := Enrollment.mk kv.1 kv.2;
        Listed.student :=
          (λ s, IncludedStudent.mk (Enrollment.student_id kv.2)
                  (Student.name s) (Student.email s))
          <$> students db !! Enrollment.student_id kv.2;
        Listed.plan :=
          (λ p, IncludedPlan.mk (Enrollment.plan_id kv.2)
                  (Plan.title p) (Plan.duration p))
          <$> plans db !! Enrollment.plan_id kv.2 |})
  <$> map_to_list (enrollments db).
End EnrollmentQuery.

(** What [index] sends and the database it leaves: [res.json] of the array
    found. *)
Definition index (db : Db) : Z * list Listed.t * Db :=
  let enrollment := EnrollmentQuery.findAll db in
  (200, enrollment, db).

(** ** Calls of any handler *)

(** One call of [store], [update] or [delete], with all it yields. *)
Definition serve (op : Op) (db : Db) : Outcome * Db * list Call :=
  match op with
  | OpStore now tr req => handle (EnrollmentController.store now tr req) db
  | OpUpdate now req => handle (EnrollmentController.update now req) db
  | OpDelete sid => handle (EnrollmentController.delete sid) db
  end.

(** The student a call is about; a body that fails the schema names none. *)
Definition opStudent (op : Op) : option Z :=
  match op with
  | OpStore _ _ (WellFormed b) | OpUpdate _ (WellFormed b) => Some (student_id b)
  | OpStore _ _ Malformed | OpUpdate _ Malformed => None
  | OpDelete sid => Some sid
  end.

(** The calls that only read. *)
Definition isLookup (c : Call) : bool :=
  match c with
  | CallEnrollmentFindOne _ | CallStudentFindByPk _ | CallPlanFindByPk _ => true
  | _ => false
  end.

(** The first check of [store] and of [update]: the student has no
    enrollment yet, respectively has one. *)
Definition enrollmentCheck (m : Method) (b : Body) (db : Db) : Prop :=
  match m with
  | Store => ¬ enrolled (student_id b) db
  | Update => enrolled (student_id b) db
  end.

(** The answer of [store] and of [update] when that first check fails. *)
Definition enrollmentError (m : Method) : Response :=
  match m with
  | Store => AlreadyEnrolled
  | Update => NotEnrolled
  end.

(** The time of day within its hour, in milliseconds. *)
Definition intoHour (d : DateTime) : Z :=
  minutes d * 60000 + seconds d * 1000 + milliseconds d.

(** More sample data: two students, one of them enrolled. *)
Module Demo.
Definition bob : Student.t := Student.mk "Bob" "bob@example.org".
Definition bobValues : Enrollment.values :=
  Enrollment.mkValues 8 1 (mkDate 2024 2 1 8 0 0 0) (mkDate 2024 3 1 8 0 0 0)
    100%float.
Definition db : Db :=
  mkDb (<[ 8 := bob ]> {[ 7 := Sample.ana ]})
       (<[ 1 := Sample.monthly ]> {[ 2 := Sample.gold ]})
       {[ 5 := bobValues ]}.
(** The enrollment of student 8 outlives the student row and the plan. *)
Definition orphaned : Db := mkDb ∅ {[ 2 := Sample.gold ]} {[ 5 := bobValues ]}.
Definition noPlans : Db :=
  mkDb (<[ 8 := bob ]> {[ 7 := Sample.ana ]}) ∅ {[ 5 := bobValues ]}.
(** Student 7 enrolls, student 8 changes plan. *)
Definition body7 : Body := Sample.body.
Definition body8 : Body := mkBody (mkDate 2024 5 31 9 20 0 0) 2 8.
(** A quarter past ten on 2024-03-15, in the hour of [Sample.midMarch]. *)
Definition quarterPast : DateTime := mkDate 2024 3 15 10 15 0 0.
End Demo.

(** ** Lemmas on the tables *)

(** Splits a membership in an explicit list of calls into its cases. *)
Ltac in_calls H :=
  repeat (apply elem_of_cons in H as [H|H]; [try discriminate H|]);
  try (apply elem_of_nil in H; destruct H).

Lemma rowOfStudent_Some sid (t : gmap Z Enrollment.values) e :
  rowOfStudent sid t = Some e →
  t !! Enrollment.id e = Some (Enrollment.dataValues e)
  ∧ Enrollment.student_id (Enrollment.dataValues e) = sid.
Proof.
  unfold rowOfStudent.
  destruct (find _ _) as [[k v]|] eqn:Hfind; [|discriminate].
  intros [= <-]. apply find_some in Hfind as [Hin Heq]. simpl in *.
  split.
  - by apply elem_of_map_to_list, list_elem_of_In.
  - by apply Z.eqb_eq.
Qed.

Lemma rowOfStudent_None sid (t : gmap Z Enrollment.values) :
  rowOfStudent sid t = None →
  ∀ k v, t !! k = Some v → Enrollment.student_id v ≠ sid.
Proof.
  unfold rowOfStudent.
  destruct (find _ _) as [[k0 v0]|] eqn:Hfind; [discriminate|].
  intros _ k v Hkv.
  apply elem_of_map_to_list, list_elem_of_In in Hkv.
  pose proof (find_none _ _ Hfind _ Hkv) as Hne. simpl in Hne.
  by apply Z.eqb_neq.
Qed.

Lemma rowOfStudent_enrolled sid db :
  is_Some (rowOfStudent sid (enrollments db)) ↔ enrolled sid db.
Proof.
  split.
  - intros [e He]. apply rowOfStudent_Some in He as [? ?].
    by exists (Enrollment.id e), (Enrollment.dataValues e).
  - intros (k & v & Hkv & Hs).
    destruct (rowOfStudent sid (enrollments db)) eqn:He; [by eexists|].
    by destruct (rowOfStudent_None _ _ He _ _ Hkv).
Qed.

Lemma rowOfStudent_not_enrolled sid db :
  rowOfStudent sid (enrollments db) = None ↔ ¬ enrolled sid db.
Proof.
  rewrite <- rowOfStudent_enrolled, <- eq_None_not_Some. done.
Qed.

Lemma foldr_max_ge (l : list Z) x : x ∈ l → x ≤ foldr Z.max 0 l.
Proof.
  induction l as [|y l IH]; simpl.
  - by intros ?%elem_of_nil.
  - intros [->|Hin]%elem_of_cons; [lia|]. specialize (IH Hin). lia.
Qed.

Lemma nextKey_fresh (t : gmap Z Enrollment.values) : t !! nextKey t = None.
Proof.
  destruct (t !! nextKey t) as [v|] eqn:Hv; [|done].
  assert (nextKey t ∈ (map_to_list t).*1) as Hin.
  { apply list_elem_of_fmap. exists (nextKey t, v). split; [done|].
    by apply elem_of_map_to_list. }
  apply foldr_max_ge in Hin. unfold nextKey in Hin at 1. lia.
Qed.

(** ** The handlers as decision trees *)

Lemma store_eq now tr b db :
  call Store now tr b db =
  let sid := student_id b in
  match rowOfStudent sid (enrollments db) with
  | Some _ => (Responded AlreadyEnrolled, db, [CallEnrollmentFindOne sid])
  | None =>
    match students db !! sid with
    | None =>
        (Responded (StudentNotFound Store), db,
         [CallEnrollmentFindOne sid; CallStudentFindByPk sid])
    | Some s =>
      match plans db !! plan_id b with
      | None =>
          (Responded PlanNotFound, db,
           [CallEnrollmentFindOne sid; CallStudentFindByPk sid;
            CallPlanFindByPk (plan_id b)])
      | Some p =>
        if isBefore (startOfHour (start_date b)) now then
          (Responded PastDate, db,
           [CallEnrollmentFindOne sid; CallStudentFindByPk sid;
            CallPlanFindByPk (plan_id b)])
        else
          let e := Enrollment.mk (nextKey (enrollments db)) (derived b p) in
          let calls :=
            [CallEnrollmentFindOne sid; CallStudentFindByPk sid;
             CallPlanFindByPk (plan_id b); CallEnrollmentCreate (derived b p);
             CallSendMail (confirmation s p e)] in
          let db' :=
            setEnrollments db
              (<[Enrollment.id e := derived b p]> (enrollments db)) in
          if tr (confirmation s p e) then (ok e, db', calls)
          else (Rejected (MailRejected (confirmation s p e)), db', calls)
      end
    end
  end.
Proof.
  destruct b as [sd pid sid]. simpl.
  unfold handle, EnrollmentController.store, bind, EnrollmentModel.findOne,
    parseISO.
  simpl. destruct (rowOfStudent sid (enrollments db)); [done|].
  simpl. destruct (students db !! sid) as [s|]; [|done].
  simpl. destruct (plans db !! pid) as [p|]; [|done].
  destruct (isBefore (startOfHour sd) now); [done|].
  simpl. unfold MailLib.sendMail, confirmation, derived. simpl.
  by destruct (tr _).
Qed.

Lemma update_eq now tr b db :
  call Update now tr b db =
  let sid := student_id b in
  match rowOfStudent sid (enrollments db) with
  | None => (Responded NotEnrolled, db, [CallEnrollmentFindOne sid])
  | Some old =>
    match students db !! sid with
    | None =>
        (Responded (StudentNotFound Update), db,
         [CallEnrollmentFindOne sid; CallStudentFindByPk sid])
    | Some s =>
      match plans db !! plan_id b with
      | None =>
          (Responded PlanNotFound, db,
           [CallEnrollmentFindOne sid; CallStudentFindByPk sid;
            CallPlanFindByPk (plan_id b)])
      | Some p =>
        if isBefore (startOfHour (start_date b)) now then
          (Responded PastDate, db,
           [CallEnrollmentFindOne sid; CallStudentFindByPk sid;
            CallPlanFindByPk (plan_id b)])
        else
          (ok (Enrollment.mk (Enrollment.id old) (derived b p)),
           setEnrollments db
             (alter (λ _, derived b p) (Enrollment.id old) (enrollments db)),
           [CallEnrollmentFindOne sid; CallStudentFindByPk sid;
            CallPlanFindByPk (plan_id b);
            CallEnrollmentUpdate (Enrollment.id old) (derived b p)])
      end
    end
  end.
Proof.
  destruct b as [sd pid sid]. simpl.
  unfold handle, EnrollmentController.update, bind, EnrollmentModel.findOne,
    parseISO.
  simpl. destruct (rowOfStudent sid (enrollments db)); [|done].
  simpl. destruct (students db !! sid) as [s|]; [|done].
  simpl. destruct (plans db !! pid) as [p|]; [|done].
  by destruct (isBefore (startOfHour sd) now).
Qed.

Lemma delete_eq sid db :
  handle (EnrollmentController.delete sid) db =
  match rowOfStudent sid (enrollments db) with
  | None => (Responded NotEnrolled, db, [CallEnrollmentFindOne sid])
  | Some old =>
      (ok old,
       setEnrollments db
         (filter (λ kv, Enrollment.student_id kv.2 ≠ sid) (enrollments db)),
       [CallEnrollmentFindOne sid; CallEnrollmentDestroy sid])
  end.
Proof.
  unfold handle, EnrollmentController.delete, bind, EnrollmentModel.findOne.
  simpl. by destruct (rowOfStudent sid (enrollments db)).
Qed.

Lemma setEnrollments_id db : setEnrollments db (enrollments db) = db.
Proof. by destruct db. Qed.

(** What a successful [store] or [update] did. *)
Lemma call_ok_inv m now tr b db e db' c :
  call m now tr b db = (ok e, db', c) →
  ∃ s p,
    students db !! student_id b = Some s
    ∧ plans db !! plan_id b = Some p
    ∧ isBefore (startOfHour (start_date b)) now = false
    ∧ Enrollment.dataValues e = derived b p
    ∧ db' = setEnrollments db (<[Enrollment.id e := derived b p]> (enrollments db))
    ∧ match m with
      | Store =>
          rowOfStudent (student_id b) (enrollments db) = None
          ∧ enrollments db !! Enrollment.id e = None
          ∧ tr (confirmation s p e) = true
          ∧ c = [CallEnrollmentFindOne (student_id b);
                 CallStudentFindByPk (student_id b);
                 CallPlanFindByPk (plan_id b);
                 CallEnrollmentCreate (derived b p);
                 CallSendMail (confirmation s p e)]
      | Update =>
          (∃ old, rowOfStudent (student_id b) (enrollments db) = Some old
                  ∧ Enrollment.id e = Enrollment.id old)
          ∧ c = [CallEnrollmentFindOne (student_id b);
                 CallStudentFindByPk (student_id b);
                 CallPlanFindByPk (plan_id b);
                 CallEnrollmentUpdate (Enrollment.id e) (derived b p)]
      end.
Proof.
  destruct m.
  - rewrite store_eq. simpl.
    destruct (rowOfStudent _ _) eqn:Hrow; [discriminate|].
    destruct (students db !! _) as [s|] eqn:Hs; [|discriminate].
    destruct (plans db !! _) as [p|] eqn:Hp; [|discriminate].
    destruct (isBefore _ _) eqn:Hb; [discriminate|].
    destruct (tr _) eqn:Htr; [|discriminate].
    intros [= <- <- <-]. exists s, p. simpl.
    repeat split; try done. apply nextKey_fresh.
  - rewrite update_eq. simpl.
    destruct (rowOfStudent _ _) as [old|] eqn:Hrow; [|discriminate].
    destruct (students db !! _) as [s|] eqn:Hs; [|discriminate].
    destruct (plans db !! _) as [p|] eqn:Hp; [|discriminate].
    destruct (isBefore _ _) eqn:Hb; [discriminate|].
    intros [= <- <- <-]. exists s, p. simpl.
    apply rowOfStudent_Some in Hrow as Hold. destruct Hold as [Hold _].
    repeat split; try done.
    + f_equal. apply map_eq. intros k.
      rewrite lookup_alter, lookup_insert.
      repeat case_decide; try congruence. subst. by rewrite Hold.
    + by exists old.
Qed.

(** ** Runs on the sample data *)

Example malformed_body now tr db :
  handle (EnrollmentController.store now tr Malformed) db
  = (Responded InvalidInput, db, [])
  ∧ handle (EnrollmentController.update now Malformed) db
    = (Responded InvalidInput, db, []).
Proof. done. Qed.

Lemma sample_store :
  call Store Sample.newYear Sample.up Sample.body Sample.db0
  = (ok Sample.e1, Sample.db1, Sample.calls1).
Proof. vm_compute. reflexivity. Qed.

Lemma sample_update :
  call Update Sample.newYear Sample.up Sample.body2 Sample.db1
  = (ok Sample.e2, Sample.db2, Sample.calls2).
Proof. vm_compute. reflexivity. Qed.

(** ** Month arithmetic *)

Lemma getDaysInMonth_bounds y m : 28 ≤ getDaysInMonth y m ≤ 31.
Proof.
  unfold getDaysInMonth.
  destruct m as [|[[[[]|[]|]|[[]|[]|]|]|[[[]|[]|]|[[]|[]|]|]|]|];
    try destruct (isLeapYear y); lia.
Qed.

Lemma addMonths_fields d n :
  let r := addMonths d n in
  year r * 12 + (month r - 1) = year d * 12 + (month d - 1) + n
  ∧ 1 ≤ month r ≤ 12
  ∧ day r = Z.min (day d) (getDaysInMonth (year r) (month r))
  ∧ hours r = hours d ∧ minutes r = minutes d
  ∧ seconds r = seconds d ∧ milliseconds r = milliseconds d.
Proof.
  simpl. repeat split; try done.
  - pose proof (Z.div_mod (year d * 12 + (month d - 1) + n) 12). lia.
  - pose proof (Z.mod_pos_bound (year d * 12 + (month d - 1) + n) 12). lia.
  - pose proof (Z.mod_pos_bound (year d * 12 + (month d - 1) + n) 12). lia.
Qed.

Lemma startOfHour_valid d : validDate d = true → validDate (startOfHour d) = true.
Proof.
  unfold validDate. intros Hd.
  repeat (apply andb_prop in Hd as [Hd ?]). simpl.
  repeat (apply andb_true_intro; split); done.
Qed.

Lemma addMonths_valid d n : validDate d = true → validDate (addMonths d n) = true.
Proof.
  unfold validDate. intros Hd.
  repeat (apply andb_prop in Hd as [Hd ?]).
  destruct (addMonths_fields d n) as (_ & Hm & Hday & -> & -> & -> & ->).
  pose proof (getDaysInMonth_bounds (year (addMonths d n)) (month (addMonths d n))).
  repeat (apply andb_true_intro; split); try done; lia.
Qed.

Example addMonths_leap_february :
  addMonths (mkDate 2024 1 31 0 0 0 0) 1 = mkDate 2024 2 29 0 0 0 0.
Proof. reflexivity. Qed.

Example addMonths_plain_february :
  addMonths (mkDate 2023 1 31 0 0 0 0) 1 = mkDate 2023 2 28 0 0 0 0.
Proof. reflexivity. Qed.

Example addMonths_keeps_day :
  addMonths (mkDate 2024 1 10 9 0 0 0) 3 = mkDate 2024 4 10 9 0 0 0.
Proof. reflexivity. Qed.

Example startOfHour_sample :
  startOfHour (mkDate 2024 3 15 10 47 33 0) = mkDate 2024 3 15 10 0 0 0.
Proof. reflexivity. Qed.

(** ** The stored start date (C1) *)

(** C1, as stated, fails: a successful [store] of a body whose start date is
    2024-03-15 10:47:33 persists that very instant, not the start of its
    hour, 10:00:00. *)
Lemma store_start_date_not_truncated :
  call Store Sample.newYear Sample.up Sample.body Sample.db0
  = (ok Sample.e1, Sample.db1, Sample.calls1)
  ∧ enrollments Sample.db1 !! Enrollment.id Sample.e1
    = Some (Enrollment.dataValues Sample.e1)
  ∧ Enrollment.start_date (Enrollment.dataValues Sample.e1)
    = mkDate 2024 3 15 10 47 33 0
  ∧ startOfHour (start_date Sample.body) = mkDate 2024 3 15 10 0 0 0
  ∧ Enrollment.start_date (Enrollment.dataValues Sample.e1)
    ≠ startOfHour (start_date Sample.body).
Proof.
  split; [apply sample_store|].
  split; [by vm_compute|].
  repeat split. discriminate.
Qed.

(** C1, amended: for every successful [store] or [update], the start date
    persisted on the enrollment is the start date of the body as the client
    gave it; its truncation to the start of the hour is what was checked
    against the clock and what the end date is counted from. *)
Theorem persisted_start_date m now tr b db e db' c :
  call m now tr b db = (ok e, db', c) →
  enrollments db' !! Enrollment.id e = Some (Enrollment.dataValues e)
  ∧ Enrollment.start_date (Enrollment.dataValues e) = start_date b
  ∧ isBefore (startOfHour (start_date b)) now = false
  ∧ ∃ p, plans db !! plan_id b = Some p
         ∧ Enrollment.end_date (Enrollment.dataValues e)
           = addMonths (startOfHour (start_date b)) (Plan.duration p).
Proof.
  intros (s & p & _ & Hp & Hb & Hv & -> & _)%call_ok_inv.
  simpl. rewrite lookup_insert_eq, Hv. simpl. eauto 10.
Qed.

Lemma persisted_start_date_witness :
  call Store Sample.newYear Sample.up Sample.body Sample.db0
  = (ok Sample.e1, Sample.db1, Sample.calls1)
  ∧ (enrollments Sample.db1 !! Enrollment.id Sample.e1
     = Some (Enrollment.dataValues Sample.e1)
     ∧ Enrollment.start_date (Enrollment.dataValues Sample.e1)
       = start_date Sample.body
     ∧ isBefore (startOfHour (start_date Sample.body)) Sample.newYear = false
     ∧ ∃ p, plans Sample.db0 !! plan_id Sample.body = Some p
            ∧ Enrollment.end_date (Enrollment.dataValues Sample.e1)
              = addMonths (startOfHour (start_date Sample.body))
                  (Plan.duration p)).
Proof.
  assert (call Store Sample.newYear Sample.up Sample.body Sample.db0
          = (ok Sample.e1, Sample.db1, Sample.calls1)) as H
    by (vm_compute; reflexivity).
  split; [exact H|].
  exact (persisted_start_date Store Sample.newYear Sample.up Sample.body
           Sample.db0 Sample.e1 Sample.db1 Sample.calls1 H).
Defined.

(** ** The price (C2) *)

(** C2, as stated, fails: for a plan of price 129.90 and duration 3 the
    persisted price is the binary64 product 389.70000000000005, which lies
    above 389.70. *)
Lemma store_price_drifts :
  plans Sample.db0 !! plan_id Sample.body = Some (Plan.mk "Gold" 129.9 3)
  ∧ call Store Sample.newYear Sample.up Sample.body Sample.db0
    = (ok Sample.e1, Sample.db1, Sample.calls1)
  ∧ enrollments Sample.db1 !! Enrollment.id Sample.e1
    = Some (Enrollment.dataValues Sample.e1)
  ∧ Enrollment.price (Enrollment.dataValues Sample.e1)
    = 389.70000000000005%float
  ∧ PrimFloat.ltb 389.7 (Enrollment.price (Enrollment.dataValues Sample.e1))
    = true
  ∧ Enrollment.price (Enrollment.dataValues Sample.e1) ≠ 389.7%float.
Proof.
  split; [by vm_compute|].
  split; [apply sample_store|].
  split; [by vm_compute|].
  split; [reflexivity|].
  split; [by vm_compute|].
  intros Heq.
  assert (PrimFloat.eqb (Enrollment.price (Enrollment.dataValues Sample.e1))
            389.7 = true) as Hb by (rewrite Heq; by vm_compute).
  vm_compute in Hb. discriminate.
Qed.

(** C2, amended: for every successful [store] or [update] with plan [p], the
    persisted price is the product of [p]'s price and duration as
    JavaScript's [*] computes it, in IEEE 754 binary64 arithmetic. *)
Theorem persisted_price m now tr b db e db' c :
  call m now tr b db = (ok e, db', c) →
  ∃ p, plans db !! plan_id b = Some p
       ∧ enrollments db' !! Enrollment.id e = Some (Enrollment.dataValues e)
       ∧ Enrollment.price (Enrollment.dataValues e)
         = PrimFloat.mul (Plan.price p) (number_of_Z (Plan.duration p)).
Proof.
  intros (s & p & _ & Hp & _ & Hv & -> & _)%call_ok_inv.
  exists p. simpl. rewrite lookup_insert_eq, Hv. done.
Qed.

Lemma persisted_price_witness :
  call Update Sample.newYear Sample.up Sample.body2 Sample.db1
  = (ok Sample.e2, Sample.db2, Sample.calls2)
  ∧ ∃ p, plans Sample.db1 !! plan_id Sample.body2 = Some p
         ∧ enrollments Sample.db2 !! Enrollment.id Sample.e2
           = Some (Enrollment.dataValues Sample.e2)
         ∧ Enrollment.price (Enrollment.dataValues Sample.e2)
           = PrimFloat.mul (Plan.price p) (number_of_Z (Plan.duration p)).
Proof.
  assert (call Update Sample.newYear Sample.up Sample.body2 Sample.db1
          = (ok Sample.e2, Sample.db2, Sample.calls2)) as H
    by (vm_compute; reflexivity).
  split; [exact H|].
  exact (persisted_price Update Sample.newYear Sample.up Sample.body2
           Sample.db1 Sample.e2 Sample.db2 Sample.calls2 H).
Defined.

(** ** Failure of the mailer (C3) *)

(** C3, as stated, fails: with the mailer down, [store] persists the
    enrollment and then ends in the rejection of the awaited [sendMail]; the
    call does not return the persisted enrollment. *)
Lemma mail_down_store_rejects :
  call Store Sample.newYear Sample.down Sample.body Sample.db0
  = (Rejected (MailRejected Sample.mail1), Sample.db1, Sample.calls1)
  ∧ enrollments Sample.db0 !! 1 = None
  ∧ enrollments Sample.db1 !! 1 = Some Sample.values1
  ∧ ∀ e, (call Store Sample.newYear Sample.down Sample.body Sample.db0).1.1
         ≠ ok e.
Proof.
  assert (call Store Sample.newYear Sample.down Sample.body Sample.db0
          = (Rejected (MailRejected Sample.mail1), Sample.db1, Sample.calls1))
    as H by (vm_compute; reflexivity).
  split; [exact H|]. split; [by vm_compute|]. split; [by vm_compute|].
  intros e. rewrite H. discriminate.
Qed.

(** C3, amended: for every [store] call that persisted an enrollment and
    whose mail was then refused by the mailer, the enrollment stays
    persisted (nothing is rolled back), and the call ends with the rejection
    of [sendMail] instead of returning the enrollment. *)
Theorem store_mail_failure now tr b db o db' c v m :
  call Store now tr b db = (o, db', c) →
  CallEnrollmentCreate v ∈ c →
  CallSendMail m ∈ c →
  tr m = false →
  ∃ k, enrollments db !! k = None
       ∧ enrollments db' = <[k := v]> (enrollments db)
       ∧ enrollments db' !! k = Some v
       ∧ students db' = students db ∧ plans db' = plans db
       ∧ o = Rejected (MailRejected m).
Proof.
  rewrite store_eq. simpl.
  destruct (rowOfStudent _ _); [intros [= <- <- <-] Hc; in_calls Hc|].
  destruct (students db !! _) as [s|]; [|intros [= <- <- <-] Hc; in_calls Hc].
  destruct (plans db !! _) as [p|]; [|intros [= <- <- <-] Hc; in_calls Hc].
  destruct (isBefore _ _); [intros [= <- <- <-] Hc; in_calls Hc|].
  destruct (tr (confirmation _ _ _)) eqn:Htr;
    intros [= <- <- <-] Hc Hm Hdown; in_calls Hc; in_calls Hm;
    injection Hc as ->; injection Hm as ->; [congruence|].
  exists (nextKey (enrollments db)). simpl.
  rewrite lookup_insert_eq. repeat split; try done. apply nextKey_fresh.
Qed.

Lemma store_mail_failure_witness :
  (call Store Sample.newYear Sample.down Sample.body Sample.db0
   = (Rejected (MailRejected Sample.mail1), Sample.db1, Sample.calls1)
   ∧ CallEnrollmentCreate Sample.values1 ∈ Sample.calls1
   ∧ CallSendMail Sample.mail1 ∈ Sample.calls1
   ∧ Sample.down Sample.mail1 = false)
  ∧ ∃ k, enrollments Sample.db0 !! k = None
         ∧ enrollments Sample.db1 = <[k := Sample.values1]> (enrollments Sample.db0)
         ∧ enrollments Sample.db1 !! k = Some Sample.values1
         ∧ students Sample.db1 = students Sample.db0
         ∧ plans Sample.db1 = plans Sample.db0
         ∧ Rejected (MailRejected Sample.mail1)
           = Rejected (MailRejected Sample.mail1).
Proof.
  assert (call Store Sample.newYear Sample.down Sample.body Sample.db0
          = (Rejected (MailRejected Sample.mail1), Sample.db1, Sample.calls1))
    as H by (vm_compute; reflexivity).
  assert (CallEnrollmentCreate Sample.values1 ∈ Sample.calls1) as Hc
    by (unfold Sample.calls1; do 3 apply list_elem_of_further;
        apply list_elem_of_here).
  assert (CallSendMail Sample.mail1 ∈ Sample.calls1) as Hm
    by (unfold Sample.calls1; do 4 apply list_elem_of_further;
        apply list_elem_of_here).
  assert (Sample.down Sample.mail1 = false) as Hd by reflexivity.
  split; [done|].
  exact (store_mail_failure Sample.newYear Sample.down Sample.body Sample.db0
           _ Sample.db1 Sample.calls1 Sample.values1 Sample.mail1
           H Hc Hm Hd).
Defined.

(** ** Enrolling twice (C4) *)

(** C4: when an enrollment exists for the student of the body, [store]
    answers AlreadyEnrolled after the enrollment lookup alone (no student or
    plan lookup is made) and leaves the database as it was; in particular a
    [store] that follows a successful [store] for the same student, nothing
    being deleted in between, answers AlreadyEnrolled. *)
Theorem store_already_enrolled now tr b db :
  (enrolled (student_id b) db →
   call Store now tr b db
   = (Responded AlreadyEnrolled, db, [CallEnrollmentFindOne (student_id b)]))
  ∧ (∀ now0 tr0 b0 db0 e0 c0,
       call Store now0 tr0 b0 db0 = (ok e0, db, c0) →
       student_id b0 = student_id b →
       call Store now tr b db
       = (Responded AlreadyEnrolled, db,
          [CallEnrollmentFindOne (student_id b)])).
Proof.
  assert (enrolled (student_id b) db →
          call Store now tr b db
          = (Responded AlreadyEnrolled, db,
             [CallEnrollmentFindOne (student_id b)])) as Hfirst.
  { intros [e He]%rowOfStudent_enrolled. rewrite store_eq. simpl.
    by rewrite He. }
  split; [done|].
  intros now0 tr0 b0 db0 e0 c0 Hcall Hsame. apply Hfirst.
  apply call_ok_inv in Hcall as (s & p & _ & _ & _ & Hv & -> & _).
  exists (Enrollment.id e0), (derived b0 p). simpl.
  by rewrite lookup_insert_eq.
Qed.

Lemma store_already_enrolled_witness :
  (enrolled (student_id Sample.body2) Sample.db1
   ∧ call Store Sample.newYear Sample.up Sample.body Sample.db0
     = (ok Sample.e1, Sample.db1, Sample.calls1)
   ∧ student_id Sample.body = student_id Sample.body2)
  ∧ call Store Sample.nextYear Sample.up Sample.body2 Sample.db1
    = (Responded AlreadyEnrolled, Sample.db1, [CallEnrollmentFindOne 7])
  ∧ call Store Sample.newYear Sample.down Sample.body Sample.db1
    = (Responded AlreadyEnrolled, Sample.db1, [CallEnrollmentFindOne 7]).
Proof.
  assert (enrolled (student_id Sample.body2) Sample.db1) as He
    by (exists 1, Sample.values1; split; by vm_compute).
  assert (call Store Sample.newYear Sample.up Sample.body Sample.db0
          = (ok Sample.e1, Sample.db1, Sample.calls1)) as H
    by (vm_compute; reflexivity).
  split; [done|]. split.
  - exact (proj1 (store_already_enrolled Sample.nextYear Sample.up
                    Sample.body2 Sample.db1) He).
  - exact (proj2 (store_already_enrolled Sample.newYear Sample.down
                    Sample.body Sample.db1)
             Sample.newYear Sample.up Sample.body Sample.db0 Sample.e1
             Sample.calls1 H eq_refl).
Defined.

(** ** Updating and deleting without an enrollment (C5) *)

Lemma destroy_lookup sid (t : gmap Z Enrollment.values) k v :
  filter (λ kv, Enrollment.student_id kv.2 ≠ sid) t !! k = Some v
  ↔ t !! k = Some v ∧ Enrollment.student_id v ≠ sid.
Proof. by rewrite map_lookup_filter_Some. Qed.

(** C5: when no enrollment exists for the student, [update] and [delete]
    both answer NotEnrolled after the enrollment lookup and leave the
    database as it was; when one exists, [delete] answers with that record
    and afterwards no enrollment of the student is left, the rows of the
    other students and the other tables being untouched. *)
Theorem not_enrolled_or_deleted sid db :
  (¬ enrolled sid db →
   (∀ now tr b, student_id b = sid →
      call Update now tr b db
      = (Responded NotEnrolled, db, [CallEnrollmentFindOne sid]))
   ∧ handle (EnrollmentController.delete sid) db
     = (Responded NotEnrolled, db, [CallEnrollmentFindOne sid]))
  ∧ (enrolled sid db →
     ∃ e db',
       handle (EnrollmentController.delete sid) db
       = (ok e, db', [CallEnrollmentFindOne sid; CallEnrollmentDestroy sid])
       ∧ enrollments db !! Enrollment.id e = Some (Enrollment.dataValues e)
       ∧ Enrollment.student_id (Enrollment.dataValues e) = sid
       ∧ enrollments db' !! Enrollment.id e = None
       ∧ ¬ enrolled sid db'
       ∧ (∀ k v, Enrollment.student_id v ≠ sid →
            (enrollments db' !! k = Some v ↔ enrollments db !! k = Some v))
       ∧ students db' = students db ∧ plans db' = plans db).
Proof.
  split.
  - intros Hno%rowOfStudent_not_enrolled. split.
    + intros now tr b <-. rewrite update_eq. simpl. by rewrite Hno.
    + rewrite delete_eq. by rewrite Hno.
  - intros [e He]%rowOfStudent_enrolled.
    exists e. eexists. rewrite delete_eq, He. split; [reflexivity|].
    apply rowOfStudent_Some in He as [Hrow Hsid]. simpl.
    repeat split; try done.
    + apply map_lookup_filter_None. right. intros v Hv. simpl.
      rewrite Hrow in Hv. injection Hv as <-. tauto.
    + intros (k & v & Hkv & Hv). simpl in Hkv.
      apply destroy_lookup in Hkv. tauto.
    + intros Hkv. by apply destroy_lookup in Hkv as [? _].
    + intros Hkv. by apply destroy_lookup.
Qed.

Lemma not_enrolled_or_deleted_witness :
  (¬ enrolled 7 Sample.db0 ∧ student_id Sample.body = 7
   ∧ enrolled 7 Sample.db1)
  ∧ call Update Sample.newYear Sample.up Sample.body Sample.db0
    = (Responded NotEnrolled, Sample.db0, [CallEnrollmentFindOne 7])
  ∧ handle (EnrollmentController.delete 7) Sample.db0
    = (Responded NotEnrolled, Sample.db0, [CallEnrollmentFindOne 7])
  ∧ ∃ e db',
      handle (EnrollmentController.delete 7) Sample.db1
      = (ok e, db', [CallEnrollmentFindOne 7; CallEnrollmentDestroy 7])
      ∧ enrollments Sample.db1 !! Enrollment.id e
        = Some (Enrollment.dataValues e)
      ∧ Enrollment.student_id (Enrollment.dataValues e) = 7
      ∧ enrollments db' !! Enrollment.id e = None
      ∧ ¬ enrolled 7 db'
      ∧ (∀ k v, Enrollment.student_id v ≠ 7 →
           (enrollments db' !! k = Some v
            ↔ enrollments Sample.db1 !! k = Some v))
      ∧ students db' = students Sample.db1 ∧ plans db' = plans Sample.db1.
Proof.
  assert (¬ enrolled 7 Sample.db0) as Hno.
  { intros (k & v & Hkv & _). simpl in Hkv.
    rewrite lookup_empty in Hkv. discriminate. }
  assert (enrolled 7 Sample.db1) as Hyes
    by (exists 1, Sample.values1; split; by vm_compute).
  split; [done|]. split; [|split].
  - exact (proj1 (proj1 (not_enrolled_or_deleted 7 Sample.db0) Hno)
             Sample.newYear Sample.up Sample.body eq_refl).
  - exact (proj2 (proj1 (not_enrolled_or_deleted 7 Sample.db0) Hno)).
  - exact (proj2 (not_enrolled_or_deleted 7 Sample.db1) Hyes).
Defined.

Example delete_sample :
  handle (EnrollmentController.delete 7) Sample.db1
  = (ok Sample.e1, Sample.db0,
     [CallEnrollmentFindOne 7; CallEnrollmentDestroy 7]).
Proof. vm_compute. reflexivity. Qed.

(** ** One enrollment per student (C6) *)

Lemma store_onePerStudent now tr req db :
  onePerStudent db →
  onePerStudent (handle (EnrollmentController.store now tr req) db).1.2.
Proof.
  intros Hinv. destruct req as [|b]; [done|].
  change (onePerStudent (call Store now tr b db).1.2).
  rewrite store_eq. simpl.
  destruct (rowOfStudent _ _) eqn:Hrow; [done|].
  destruct (students db !! _); [|done].
  destruct (plans db !! _) as [p|]; [|done].
  destruct (isBefore _ _); [done|].
  assert (onePerStudent
            (setEnrollments db
               (<[nextKey (enrollments db) := derived b p]> (enrollments db))))
    as Hnew; [|by destruct (tr _)].
  intros i j v w. simpl. rewrite !lookup_insert. intros Hi Hj Hs.
  pose proof (rowOfStudent_None _ _ Hrow) as Hfree.
  destruct (decide (nextKey (enrollments db) = i)) as [<-|Hni],
           (decide (nextKey (enrollments db) = j)) as [<-|Hnj]; [done|..].
  - injection Hi as <-. by destruct (Hfree _ _ Hj).
  - injection Hj as <-. by destruct (Hfree _ _ Hi).
  - by eapply Hinv.
Qed.

Lemma update_onePerStudent now req db :
  onePerStudent db →
  onePerStudent (handle (EnrollmentController.update now req) db).1.2.
Proof.
  intros Hinv. destruct req as [|b]; [done|].
  change (onePerStudent (call Update now (λ _, true) b db).1.2).
  rewrite update_eq. simpl.
  destruct (rowOfStudent _ _) as [old|] eqn:Hrow; [|done].
  destruct (students db !! _); [|done].
  destruct (plans db !! _) as [p|]; [|done].
  destruct (isBefore _ _); [done|].
  apply rowOfStudent_Some in Hrow as [Hold Hsid].
  intros i j v w. simpl. rewrite !lookup_alter. intros Hi Hj Hs.
  destruct (decide (Enrollment.id old = i)) as [<-|Hni],
           (decide (Enrollment.id old = j)) as [<-|Hnj]; [done|..].
  - rewrite Hold in Hi. injection Hi as <-. simpl in Hs.
    eapply Hinv; [exact Hold|exact Hj|]. congruence.
  - rewrite Hold in Hj. injection Hj as <-. simpl in Hs.
    eapply Hinv; [exact Hi|exact Hold|]. congruence.
  - by eapply Hinv.
Qed.

Lemma delete_onePerStudent sid db :
  onePerStudent db →
  onePerStudent (handle (EnrollmentController.delete sid) db).1.2.
Proof.
  intros Hinv. rewrite delete_eq.
  destruct (rowOfStudent _ _); [|done].
  intros i j v w. simpl.
  intros [Hi _]%destroy_lookup [Hj _]%destroy_lookup. by eapply Hinv.
Qed.

Lemma step_onePerStudent db op : onePerStudent db → onePerStudent (step db op).
Proof.
  destruct op; simpl;
    auto using store_onePerStudent, update_onePerStudent, delete_onePerStudent.
Qed.

(** C6: in every state reached from a state with at most one enrollment per
    student by any sequence of [store], [update] and [delete] calls, each
    student has at most one enrollment. *)
Theorem run_onePerStudent ops db :
  onePerStudent db → onePerStudent (run ops db).
Proof.
  revert db. induction ops as [|op ops IH]; intros db Hinv; [done|].
  simpl. apply IH. by apply step_onePerStudent.
Qed.

Lemma onePerStudent_empty s p : onePerStudent (mkDb s p ∅).
Proof. intros i j v w Hi. simpl in Hi. by rewrite lookup_empty in Hi. Qed.

Lemma run_onePerStudent_witness :
  onePerStudent Sample.db0 ∧ onePerStudent (run Sample.session Sample.db0).
Proof.
  assert (onePerStudent Sample.db0) as H by apply onePerStudent_empty.
  split; [exact H|].
  exact (run_onePerStudent Sample.session Sample.db0 H).
Defined.

Example session_sample :
  enrollments (run Sample.session Sample.db0)
  = {[ 1 := Enrollment.mkValues 7 1 (mkDate 2025 1 31 18 30 0 0)
              (mkDate 2025 2 28 18 0 0 0) 100%float ]}.
Proof. vm_compute. reflexivity. Qed.

(** ** The end date (C7) *)

(** C7: for every successful [store] or [update] with plan [p], the
    persisted end date is the start of the hour of the start date plus
    [p]'s duration in calendar months: the month is moved on by the
    duration, the day of the month is kept where the resulting month has
    such a day and is otherwise the last day of that month, and the hour is
    kept. *)
Theorem persisted_end_date m now tr b db e db' c :
  call m now tr b db = (ok e, db', c) →
  ∃ p, plans db !! plan_id b = Some p
       ∧ enrollments db' !! Enrollment.id e = Some (Enrollment.dataValues e)
       ∧ let s := startOfHour (start_date b) in
         let r := Enrollment.end_date (Enrollment.dataValues e) in
         r = addMonths s (Plan.duration p)
         ∧ year r * 12 + (month r - 1)
           = year s * 12 + (month s - 1) + Plan.duration p
         ∧ 1 ≤ month r ≤ 12
         ∧ (day s ≤ getDaysInMonth (year r) (month r) → day r = day s)
         ∧ (getDaysInMonth (year r) (month r) < day s →
            day r = getDaysInMonth (year r) (month r))
         ∧ hours r = hours (start_date b)
         ∧ minutes r = 0 ∧ seconds r = 0 ∧ milliseconds r = 0
         ∧ (validDate (start_date b) = true → validDate r = true).
Proof.
  intros (s & p & _ & Hp & _ & Hv & -> & _)%call_ok_inv.
  exists p. simpl. rewrite lookup_insert_eq, Hv.
  split; [done|]. split; [done|].
  destruct (addMonths_fields (startOfHour (start_date b)) (Plan.duration p))
    as (Hmonth & Hrange & Hday & Hh & Hmin & Hsec & Hms).
  change (Enrollment.end_date (derived b p))
    with (addMonths (startOfHour (start_date b)) (Plan.duration p)).
  change (day (startOfHour (start_date b))) with (day (start_date b)) in Hday.
  repeat split; try done; try (intros; lia).
  intros Hvalid. by apply addMonths_valid, startOfHour_valid.
Qed.

Lemma persisted_end_date_witness :
  call Update Sample.newYear Sample.up Sample.body2 Sample.db1
  = (ok Sample.e2, Sample.db2, Sample.calls2)
  ∧ ∃ p, plans Sample.db1 !! plan_id Sample.body2 = Some p
       ∧ enrollments Sample.db2 !! Enrollment.id Sample.e2
         = Some (Enrollment.dataValues Sample.e2)
       ∧ let s := startOfHour (start_date Sample.body2) in
         let r := Enrollment.end_date (Enrollment.dataValues Sample.e2) in
         r = addMonths s (Plan.duration p)
         ∧ year r * 12 + (month r - 1)
           = year s * 12 + (month s - 1) + Plan.duration p
         ∧ 1 ≤ month r ≤ 12
         ∧ (day s ≤ getDaysInMonth (year r) (month r) → day r = day s)
         ∧ (getDaysInMonth (year r) (month r) < day s →
            day r = getDaysInMonth (year r) (month r))
         ∧ hours r = hours (start_date Sample.body2)
         ∧ minutes r = 0 ∧ seconds r = 0 ∧ milliseconds r = 0
         ∧ (validDate (start_date Sample.body2) = true → validDate r = true).
Proof.
  assert (call Update Sample.newYear Sample.up Sample.body2 Sample.db1
          = (ok Sample.e2, Sample.db2, Sample.calls2)) as H
    by (vm_compute; reflexivity).
  split; [exact H|].
  exact (persisted_end_date Update Sample.newYear Sample.up Sample.body2
           Sample.db1 Sample.e2 Sample.db2 Sample.calls2 H).
Defined.

Example end_date_sample :
  Enrollment.end_date (Enrollment.dataValues Sample.e2)
  = mkDate 2025 2 28 18 0 0 0.
Proof. reflexivity. Qed.

(** ** Past dates (C8) *)

Lemma isBefore_lt a b : isBefore a b = true ↔ getTime a < getTime b.
Proof. apply Z.ltb_lt. Qed.

Lemma isBefore_ge a b : isBefore a b = false ↔ getTime b ≤ getTime a.
Proof. unfold isBefore. rewrite Z.ltb_ge. done. Qed.

(** C8, as stated, fails: with a start date in the past, [store] for a
    student who is enrolled answers AlreadyEnrolled, and [update] for a
    student who is not answers NotEnrolled, neither of them PastDate. *)
Lemma past_date_other_error :
  getTime (startOfHour (start_date Sample.body)) < getTime Sample.nextYear
  ∧ call Store Sample.nextYear Sample.up Sample.body Sample.db1
    = (Responded AlreadyEnrolled, Sample.db1, [CallEnrollmentFindOne 7])
  ∧ call Update Sample.nextYear Sample.up Sample.body Sample.db0
    = (Responded NotEnrolled, Sample.db0, [CallEnrollmentFindOne 7])
  ∧ AlreadyEnrolled ≠ PastDate
  ∧ NotEnrolled ≠ PastDate.
Proof.
  split; [by vm_compute|].
  split; [vm_compute; reflexivity|].
  split; [vm_compute; reflexivity|].
  split; discriminate.
Qed.

(** C8, amended: a body that fails the schema is answered InvalidInput
    before any other check, with nothing persisted.  For a body that passes
    it and whose start date, truncated to the start of the hour, is strictly
    before the clock, [store] and [update] fail and persist nothing, with
    the error of the first check that fails, in the order of the code: the
    enrollment check (AlreadyEnrolled when [store] finds an enrollment of
    the student, NotEnrolled when [update] finds none), then the student
    (the handler's student-not-found error), then the plan (PlanNotFound),
    and PastDate when those three pass.  When the truncated start date is at
    or after the clock, the answer is not PastDate. *)
Theorem past_date_rejected m now tr b db o db' c :
  call m now tr b db = (o, db', c) →
  (getTime (startOfHour (start_date b)) < getTime now →
   db' = db ∧ (∀ e, o ≠ ok e)
   ∧ (match m with
      | Store => enrolled (student_id b) db
      | Update => ¬ enrolled (student_id b) db
      end → o = Responded (enrollmentError m))
   ∧ (enrollmentCheck m b db → students db !! student_id b = None →
      o = Responded (StudentNotFound m))
   ∧ (enrollmentCheck m b db → is_Some (students db !! student_id b) →
      plans db !! plan_id b = None → o = Responded PlanNotFound)
   ∧ (checksPass m b db → o = Responded PastDate))
  ∧ (getTime now ≤ getTime (startOfHour (start_date b)) →
     o ≠ Responded PastDate)
  ∧ handle (EnrollmentController.store now tr Malformed) db
    = (Responded InvalidInput, db, [])
  ∧ handle (EnrollmentController.update now Malformed) db
    = (Responded InvalidInput, db, []).
Proof.
  intros Hcall. split; [|split; [|done]].
  - intros Hpast%isBefore_lt. unfold checksPass, enrollmentCheck.
    destruct m; [rewrite store_eq in Hcall|rewrite update_eq in Hcall];
      simpl in Hcall;
      destruct (rowOfStudent (student_id b) (enrollments db)) eqn:Hrow;
      (try (assert (enrolled (student_id b) db) as Hen
              by (apply rowOfStudent_enrolled; rewrite Hrow; by eexists)));
      (try (apply rowOfStudent_not_enrolled in Hrow as Hnen));
      destruct (students db !! student_id b) eqn:Hs;
      destruct (plans db !! plan_id b) eqn:Hp;
      rewrite ?Hpast in Hcall; injection Hcall as <- <- <-;
      (split; [done|]); (split; [done|]);
      repeat split; intros; try done; try tauto;
      repeat match goal with
             | H : is_Some None |- _ => by destruct H
             | H : _ ∧ _ |- _ => destruct H
             end; try done; try tauto.
  - intros Hfuture%isBefore_ge.
    destruct m; [rewrite store_eq in Hcall|rewrite update_eq in Hcall];
      simpl in Hcall; rewrite Hfuture in Hcall;
      destruct (rowOfStudent _ _); try (injection Hcall as <- <- <-; discriminate);
      destruct (students db !! _); try (injection Hcall as <- <- <-; discriminate);
      destruct (plans db !! _); try (injection Hcall as <- <- <-; discriminate);
      try destruct (tr _); injection Hcall as <- <- <-; discriminate.
Qed.

Lemma past_date_rejected_witness :
  (call Store Sample.nextYear Sample.up Sample.body Sample.db0
   = (Responded PastDate, Sample.db0,
      [CallEnrollmentFindOne 7; CallStudentFindByPk 7; CallPlanFindByPk 2])
   ∧ getTime (startOfHour (start_date Sample.body)) < getTime Sample.nextYear
   ∧ checksPass Store Sample.body Sample.db0
   ∧ call Store Sample.nextYear Sample.up Sample.body Sample.db1
     = (Responded AlreadyEnrolled, Sample.db1, [CallEnrollmentFindOne 7])
   ∧ enrolled (student_id Sample.body) Sample.db1
   ∧ call Update Sample.nextYear Sample.up Sample.body Sample.bare
     = (Responded NotEnrolled, Sample.bare, [CallEnrollmentFindOne 7])
   ∧ ¬ enrolled (student_id Sample.body) Sample.bare
   ∧ call Store Sample.nextYear Sample.up Sample.body Sample.bare
     = (Responded (StudentNotFound Store), Sample.bare,
        [CallEnrollmentFindOne 7; CallStudentFindByPk 7])
   ∧ students Sample.bare !! student_id Sample.body = None
   ∧ call Store Sample.newYear Sample.up Sample.body Sample.db0
     = (ok Sample.e1, Sample.db1, Sample.calls1)
   ∧ getTime Sample.newYear ≤ getTime (startOfHour (start_date Sample.body)))
  ∧ (Sample.db0 = Sample.db0
     ∧ (∀ e, Responded PastDate ≠ ok e)
     ∧ Responded PastDate = Responded PastDate)
  ∧ Responded AlreadyEnrolled = Responded (enrollmentError Store)
  ∧ Responded NotEnrolled = Responded (enrollmentError Update)
  ∧ Responded (StudentNotFound Store) = Responded (StudentNotFound Store)
  ∧ ok Sample.e1 ≠ Responded PastDate.
Proof.
  assert (call Store Sample.nextYear Sample.up Sample.body Sample.db0
          = (Responded PastDate, Sample.db0,
             [CallEnrollmentFindOne 7; CallStudentFindByPk 7;
              CallPlanFindByPk 2])) as Hcall
    by (vm_compute; reflexivity).
  assert (getTime (startOfHour (start_date Sample.body))
          < getTime Sample.nextYear) as Hpast by (by vm_compute).
  assert (∀ s p, ¬ enrolled (student_id Sample.body) (mkDb s p ∅)) as Hempty.
  { intros s p (k & v & Hkv & _). simpl in Hkv.
    rewrite lookup_empty in Hkv. discriminate. }
  assert (checksPass Store Sample.body Sample.db0) as Hchecks.
  { split; [apply Hempty|split; eexists; vm_compute; reflexivity]. }
  assert (call Store Sample.nextYear Sample.up Sample.body Sample.db1
          = (Responded AlreadyEnrolled, Sample.db1, [CallEnrollmentFindOne 7]))
    as Hcall1 by (vm_compute; reflexivity).
  assert (enrolled (student_id Sample.body) Sample.db1) as Hen
    by (exists 1, Sample.values1; split; by vm_compute).
  assert (call Update Sample.nextYear Sample.up Sample.body Sample.bare
          = (Responded NotEnrolled, Sample.bare, [CallEnrollmentFindOne 7]))
    as Hcall2 by (vm_compute; reflexivity).
  assert (¬ enrolled (student_id Sample.body) Sample.bare) as Hnen
    by apply Hempty.
  assert (call Store Sample.nextYear Sample.up Sample.body Sample.bare
          = (Responded (StudentNotFound Store), Sample.bare,
             [CallEnrollmentFindOne 7; CallStudentFindByPk 7]))
    as Hcall3 by (vm_compute; reflexivity).
  assert (students Sample.bare !! student_id Sample.body = None) as Hs
    by reflexivity.
  assert (call Store Sample.newYear Sample.up Sample.body Sample.db0
          = (ok Sample.e1, Sample.db1, Sample.calls1)) as Hcall'
    by (vm_compute; reflexivity).
  assert (getTime Sample.newYear
          ≤ getTime (startOfHour (start_date Sample.body))) as Hfuture
    by (by vm_compute).
  split; [by repeat (split; [assumption|])|].
  pose proof (proj1 (past_date_rejected Store Sample.nextYear Sample.up
                       Sample.body Sample.db0 _ _ _ Hcall) Hpast)
    as (Hdb & Hnot & _ & _ & _ & Hpd).
  pose proof (proj1 (past_date_rejected Store Sample.nextYear Sample.up
                       Sample.body Sample.db1 _ _ _ Hcall1) Hpast)
    as (_ & _ & Hae & _).
  pose proof (proj1 (past_date_rejected Update Sample.nextYear Sample.up
                       Sample.body Sample.bare _ _ _ Hcall2) Hpast)
    as (_ & _ & Hne & _).
  pose proof (proj1 (past_date_rejected Store Sample.nextYear Sample.up
                       Sample.body Sample.bare _ _ _ Hcall3) Hpast)
    as (_ & _ & _ & Hsn & _).
  split; [exact (conj Hdb (conj Hnot (Hpd Hchecks)))|].
  split; [exact (Hae Hen)|]. split; [exact (Hne Hnen)|].
  split; [exact (Hsn Hnen Hs)|].
  exact (proj1 (proj2 (past_date_rejected Store Sample.newYear Sample.up
                         Sample.body Sample.db0 _ _ _ Hcall')) Hfuture).
Defined.

(** ** Update in place (C9) *)

(** C9: a successful [update] answers with the enrollment the student
    already had, under the same id, its plan, start date, end date and price
    replaced by those derived from the body; that row is the only one that
    changes, no row is added, and the calls made are the three lookups and
    the update of that row: no enrollment is created and no mail is sent. *)
Theorem update_in_place now b db e db' c :
  handle (EnrollmentController.update now (WellFormed b)) db = (ok e, db', c) →
  ∃ old p,
    rowOfStudent (student_id b) (enrollments db) = Some old
    ∧ enrollments db !! Enrollment.id old = Some (Enrollment.dataValues old)
    ∧ Enrollment.id e = Enrollment.id old
    ∧ plans db !! plan_id b = Some p
    ∧ Enrollment.dataValues e =
        {| Enrollment.student_id :=
             Enrollment.student_id (Enrollment.dataValues old);
           Enrollment.plan_id := plan_id b;
           Enrollment.start_date := start_date b;
           Enrollment.end_date :=
             addMonths (startOfHour (start_date b)) (Plan.duration p);
           Enrollment.price :=
             PrimFloat.mul (Plan.price p) (number_of_Z (Plan.duration p)) |}
    ∧ enrollments db' !! Enrollment.id e = Some (Enrollment.dataValues e)
    ∧ (∀ k, k ≠ Enrollment.id e → enrollments db' !! k = enrollments db !! k)
    ∧ dom (enrollments db') = dom (enrollments db)
    ∧ students db' = students db ∧ plans db' = plans db
    ∧ c = [CallEnrollmentFindOne (student_id b);
           CallStudentFindByPk (student_id b);
           CallPlanFindByPk (plan_id b);
           CallEnrollmentUpdate (Enrollment.id e) (Enrollment.dataValues e)]
    ∧ (∀ v, CallEnrollmentCreate v ∉ c)
    ∧ (∀ msg, CallSendMail msg ∉ c).
Proof.
  intros Hcall.
  change (call Update now (λ _, true) b db = (ok e, db', c)) in Hcall.
  apply call_ok_inv in Hcall
    as (s & p & _ & Hp & _ & Hv & -> & (old & Hrow & Hid) & ->).
  apply rowOfStudent_Some in Hrow as Hold. destruct Hold as [Hold Hsid].
  exists old, p. simpl. rewrite Hv, Hsid, Hid, lookup_insert_eq.
  repeat split; try done.
  - intros k Hk. by rewrite lookup_insert_ne.
  - apply dom_insert_lookup_L. by eexists.
  - intros v Hin. in_calls Hin.
  - intros msg Hin. in_calls Hin.
Qed.

Lemma update_in_place_witness :
  handle (EnrollmentController.update Sample.newYear (WellFormed Sample.body2))
    Sample.db1
  = (ok Sample.e2, Sample.db2, Sample.calls2)
  ∧ ∃ old p,
    rowOfStudent (student_id Sample.body2) (enrollments Sample.db1) = Some old
    ∧ enrollments Sample.db1 !! Enrollment.id old
      = Some (Enrollment.dataValues old)
    ∧ Enrollment.id Sample.e2 = Enrollment.id old
    ∧ plans Sample.db1 !! plan_id Sample.body2 = Some p
    ∧ Enrollment.dataValues Sample.e2 =
        {| Enrollment.student_id :=
             Enrollment.student_id (Enrollment.dataValues old);
           Enrollment.plan_id := plan_id Sample.body2;
           Enrollment.start_date := start_date Sample.body2;
           Enrollment.end_date :=
             addMonths (startOfHour (start_date Sample.body2))
               (Plan.duration p);
           Enrollment.price :=
             PrimFloat.mul (Plan.price p) (number_of_Z (Plan.duration p)) |}
    ∧ enrollments Sample.db2 !! Enrollment.id Sample.e2
      = Some (Enrollment.dataValues Sample.e2)
    ∧ (∀ k, k ≠ Enrollment.id Sample.e2 →
         enrollments Sample.db2 !! k = enrollments Sample.db1 !! k)
    ∧ dom (enrollments Sample.db2) = dom (enrollments Sample.db1)
    ∧ students Sample.db2 = students Sample.db1
    ∧ plans Sample.db2 = plans Sample.db1
    ∧ Sample.calls2
      = [CallEnrollmentFindOne (student_id Sample.body2);
         CallStudentFindByPk (student_id Sample.body2);
         CallPlanFindByPk (plan_id Sample.body2);
         CallEnrollmentUpdate (Enrollment.id Sample.e2)
           (Enrollment.dataValues Sample.e2)]
    ∧ (∀ v, CallEnrollmentCreate v ∉ Sample.calls2)
    ∧ (∀ msg, CallSendMail msg ∉ Sample.calls2).
Proof.
  assert (handle (EnrollmentController.update Sample.newYear
                    (WellFormed Sample.body2)) Sample.db1
          = (ok Sample.e2, Sample.db2, Sample.calls2)) as H
    by (vm_compute; reflexivity).
  split; [exact H|].
  exact (update_in_place Sample.newYear Sample.body2 Sample.db1 Sample.e2
           Sample.db2 Sample.calls2 H).
Defined.

(** ** The order of the checks of update (C10) *)

(** C10: for a student without enrollment, [update] answers NotEnrolled
    whatever the student and plan tables hold, so also when the student id
    or the plan id of the body resolves to nothing: the enrollment lookup is
    the only call made, and NotEnrolled is neither of the responses for a
    missing student or plan. *)
Theorem update_not_enrolled_first now b db :
  ¬ enrolled (student_id b) db →
  handle (EnrollmentController.update now (WellFormed b)) db
  = (Responded NotEnrolled, db, [CallEnrollmentFindOne (student_id b)])
  ∧ (∀ st pl,
       handle (EnrollmentController.update now (WellFormed b))
         (mkDb st pl (enrollments db))
       = (Responded NotEnrolled, mkDb st pl (enrollments db),
          [CallEnrollmentFindOne (student_id b)]))
  ∧ NotEnrolled ≠ StudentNotFound Update
  ∧ NotEnrolled ≠ PlanNotFound.
Proof.
  intros Hno.
  assert (∀ st pl,
            handle (EnrollmentController.update now (WellFormed b))
              (mkDb st pl (enrollments db))
            = (Responded NotEnrolled, mkDb st pl (enrollments db),
               [CallEnrollmentFindOne (student_id b)])) as Hany.
  { intros st pl.
    change (call Update now (λ _, true) b (mkDb st pl (enrollments db))
            = (Responded NotEnrolled, mkDb st pl (enrollments db),
               [CallEnrollmentFindOne (student_id b)])).
    rewrite update_eq. simpl.
    apply rowOfStudent_not_enrolled in Hno. by rewrite Hno. }
  split; [|split; [exact Hany|split; discriminate]].
  specialize (Hany (students db) (plans db)). by destruct db.
Qed.

Lemma update_not_enrolled_first_witness :
  (¬ enrolled (student_id Sample.body) Sample.bare
   ∧ students Sample.bare !! student_id Sample.body = None
   ∧ plans Sample.bare !! plan_id Sample.body = None)
  ∧ handle (EnrollmentController.update Sample.newYear
              (WellFormed Sample.body)) Sample.bare
    = (Responded NotEnrolled, Sample.bare, [CallEnrollmentFindOne 7]).
Proof.
  assert (¬ enrolled (student_id Sample.body) Sample.bare) as Hno.
  { intros (k & v & Hkv & _). simpl in Hkv.
    rewrite lookup_empty in Hkv. discriminate. }
  split; [split; [exact Hno|split; reflexivity]|].
  exact (proj1 (update_not_enrolled_first Sample.newYear Sample.body
                  Sample.bare Hno)).
Defined.

(** * Further properties of the handlers *)

(** ** Missing student, missing plan *)

Lemma enrollmentCheck_row m b db :
  enrollmentCheck m b db →
  match m with
  | Store => rowOfStudent (student_id b) (enrollments db) = None
  | Update => is_Some (rowOfStudent (student_id b) (enrollments db))
  end.
Proof.
  destruct m; simpl.
  - by intros ?%rowOfStudent_not_enrolled.
  - by intros ?%rowOfStudent_enrolled.
Qed.

(** X1: once the enrollment check is passed, a student id that resolves to
    no student makes [store] and [update] answer their student-not-found
    error with the database unchanged, whatever the plan id and the start
    date are: the plan is not looked up. *)
Theorem student_not_found m now tr b db :
  enrollmentCheck m b db →
  students db !! student_id b = None →
  call m now tr b db
  = (Responded (StudentNotFound m), db,
     [CallEnrollmentFindOne (student_id b); CallStudentFindByPk (student_id b)]).
Proof.
  intros Hcheck%enrollmentCheck_row Hs.
  destruct m; [rewrite store_eq|rewrite update_eq]; simpl.
  - by rewrite Hcheck, Hs.
  - destruct Hcheck as [old ->]. by rewrite Hs.
Qed.

Lemma student_not_found_witness :
  (enrollmentCheck Update Demo.body8 Demo.orphaned
   ∧ students Demo.orphaned !! student_id Demo.body8 = None)
  ∧ call Update Sample.newYear Sample.up Demo.body8 Demo.orphaned
    = (Responded (StudentNotFound Update), Demo.orphaned,
       [CallEnrollmentFindOne 8; CallStudentFindByPk 8]).
Proof.
  assert (enrollmentCheck Update Demo.body8 Demo.orphaned) as Hc
    by (exists 5, Demo.bobValues; split; by vm_compute).
  assert (students Demo.orphaned !! student_id Demo.body8 = None) as Hs
    by reflexivity.
  split; [done|].
  exact (student_not_found Update Sample.newYear Sample.up Demo.body8
           Demo.orphaned Hc Hs).
Defined.

(** X2: once the enrollment check is passed and the student is found, a
    plan id that resolves to no plan makes [store] and [update] answer
    'The plan was not found.' with the database unchanged, also when the
    start date is in the past. *)
Theorem plan_not_found m now tr b db :
  enrollmentCheck m b db →
  is_Some (students db !! student_id b) →
  plans db !! plan_id b = None →
  call m now tr b db
  = (Responded PlanNotFound, db,
     [CallEnrollmentFindOne (student_id b); CallStudentFindByPk (student_id b);
      CallPlanFindByPk (plan_id b)]).
Proof.
  intros Hcheck%enrollmentCheck_row [s Hs] Hp.
  destruct m; [rewrite store_eq|rewrite update_eq]; simpl.
  - by rewrite Hcheck, Hs, Hp.
  - destruct Hcheck as [old ->]. by rewrite Hs, Hp.
Qed.

Lemma plan_not_found_witness :
  (enrollmentCheck Store Demo.body7 Demo.noPlans
   ∧ is_Some (students Demo.noPlans !! student_id Demo.body7)
   ∧ plans Demo.noPlans !! plan_id Demo.body7 = None
   ∧ getTime (startOfHour (start_date Demo.body7)) < getTime Sample.nextYear)
  ∧ call Store Sample.nextYear Sample.up Demo.body7 Demo.noPlans
    = (Responded PlanNotFound, Demo.noPlans,
       [CallEnrollmentFindOne 7; CallStudentFindByPk 7; CallPlanFindByPk 2]).
Proof.
  assert (enrollmentCheck Store Demo.body7 Demo.noPlans) as Hc.
  { intros (k & v & Hkv & Hv). simpl in Hkv.
    apply lookup_singleton_Some in Hkv as [_ <-]. discriminate. }
  assert (is_Some (students Demo.noPlans !! student_id Demo.body7)) as Hs
    by (eexists; vm_compute; reflexivity).
  assert (plans Demo.noPlans !! plan_id Demo.body7 = None) as Hp
    by reflexivity.
  split; [repeat split; try done; by vm_compute|].
  exact (plan_not_found Store Sample.nextYear Sample.up Demo.body7
           Demo.noPlans Hc Hs Hp).
Defined.

(** ** When a call succeeds *)

(** X3: [store] answers with an enrollment exactly when the student has no
    enrollment, the student and the plan exist, the start of the hour of
    the start date is not before the clock and the mailer takes the
    confirmation; the enrollment then is the derived record under an unused
    key. *)
Theorem store_ok_iff now tr b db e :
  (∃ db' c, call Store now tr b db = (ok e, db', c))
  ↔ ∃ s p,
      ¬ enrolled (student_id b) db
      ∧ students db !! student_id b = Some s
      ∧ plans db !! plan_id b = Some p
      ∧ getTime now ≤ getTime (startOfHour (start_date b))
      ∧ e = Enrollment.mk (nextKey (enrollments db)) (derived b p)
      ∧ tr (confirmation s p e) = true.
Proof.
  split.
  - intros (db' & c & Hcall). rewrite store_eq in Hcall. simpl in Hcall.
    destruct (rowOfStudent _ _) eqn:Hrow; [discriminate|].
    destruct (students db !! _) as [s|] eqn:Hs; [|discriminate].
    destruct (plans db !! _) as [p|] eqn:Hp; [|discriminate].
    destruct (isBefore _ _) eqn:Hb; [discriminate|].
    destruct (tr _) eqn:Htr; [|discriminate].
    injection Hcall as <- <- <-. exists s, p.
    apply rowOfStudent_not_enrolled in Hrow. apply isBefore_ge in Hb. done.
  - intros (s & p & Hrow%rowOfStudent_not_enrolled & Hs & Hp
            & Hb%isBefore_ge & -> & Htr).
    rewrite store_eq. simpl. rewrite Hrow, Hs, Hp, Hb, Htr. eauto.
Qed.

Lemma store_ok_iff_witness :
  (∃ s p,
      ¬ enrolled (student_id Demo.body7) Demo.db
      ∧ students Demo.db !! student_id Demo.body7 = Some s
      ∧ plans Demo.db !! plan_id Demo.body7 = Some p
      ∧ getTime Sample.newYear ≤ getTime (startOfHour (start_date Demo.body7))
      ∧ Enrollment.mk 6 Sample.values1
        = Enrollment.mk (nextKey (enrollments Demo.db)) (derived Demo.body7 p)
      ∧ Sample.up (confirmation s p (Enrollment.mk 6 Sample.values1)) = true)
  ∧ ∃ db' c, call Store Sample.newYear Sample.up Demo.body7 Demo.db
             = (ok (Enrollment.mk 6 Sample.values1), db', c).
Proof.
  assert (∃ s p,
      ¬ enrolled (student_id Demo.body7) Demo.db
      ∧ students Demo.db !! student_id Demo.body7 = Some s
      ∧ plans Demo.db !! plan_id Demo.body7 = Some p
      ∧ getTime Sample.newYear ≤ getTime (startOfHour (start_date Demo.body7))
      ∧ Enrollment.mk 6 Sample.values1
        = Enrollment.mk (nextKey (enrollments Demo.db)) (derived Demo.body7 p)
      ∧ Sample.up (confirmation s p (Enrollment.mk 6 Sample.values1)) = true)
    as H.
  { exists Sample.ana, Sample.gold. repeat split; try (by vm_compute).
    intros (k & v & Hkv & Hv). simpl in Hkv.
    apply lookup_singleton_Some in Hkv as [_ <-]. discriminate. }
  split; [exact H|].
  exact (proj2 (store_ok_iff Sample.newYear Sample.up Demo.body7 Demo.db
                  (Enrollment.mk 6 Sample.values1)) H).
Defined.

(** X4: [update] answers with an enrollment exactly when the student has an
    enrollment, the student and the plan exist and the start of the hour of
    the start date is not before the clock; the mailer plays no part. *)
Theorem update_ok_iff now b db :
  (∃ e db' c,
     handle (EnrollmentController.update now (WellFormed b)) db = (ok e, db', c))
  ↔ enrolled (student_id b) db
    ∧ is_Some (students db !! student_id b)
    ∧ is_Some (plans db !! plan_id b)
    ∧ getTime now ≤ getTime (startOfHour (start_date b)).
Proof.
  change (handle (EnrollmentController.update now (WellFormed b)) db)
    with (call Update now (λ _, true) b db).
  rewrite update_eq. simpl. split.
  - intros (e & db' & c & Hcall).
    destruct (rowOfStudent _ _) eqn:Hrow; [|discriminate].
    destruct (students db !! _) as [s|] eqn:Hs; [|discriminate].
    destruct (plans db !! _) as [p|] eqn:Hp; [|discriminate].
    destruct (isBefore _ _) eqn:Hb; [discriminate|].
    apply isBefore_ge in Hb. repeat split; try done.
    apply rowOfStudent_enrolled. by rewrite Hrow.
  - intros ([old Hrow]%rowOfStudent_enrolled & [s Hs] & [p Hp] & Hb%isBefore_ge).
    rewrite Hrow, Hs, Hp, Hb. eauto.
Qed.

Lemma update_ok_iff_witness :
  (enrolled (student_id Demo.body8) Demo.db
   ∧ is_Some (students Demo.db !! student_id Demo.body8)
   ∧ is_Some (plans Demo.db !! plan_id Demo.body8)
   ∧ getTime Sample.newYear ≤ getTime (startOfHour (start_date Demo.body8)))
  ∧ ∃ e db' c,
      handle (EnrollmentController.update Sample.newYear (WellFormed Demo.body8))
        Demo.db
      = (ok e, db', c).
Proof.
  assert (enrolled (student_id Demo.body8) Demo.db
   ∧ is_Some (students Demo.db !! student_id Demo.body8)
   ∧ is_Some (plans Demo.db !! plan_id Demo.body8)
   ∧ getTime Sample.newYear ≤ getTime (startOfHour (start_date Demo.body8)))
    as H.
  { split; [exists 5, Demo.bobValues; split; by vm_compute|].
    split; [eexists; vm_compute; reflexivity|].
    split; [eexists; vm_compute; reflexivity|by vm_compute]. }
  split; [exact H|].
  exact (proj2 (update_ok_iff Sample.newYear Demo.body8 Demo.db) H).
Defined.

(** ** What calls of any handler have in common *)

Lemma serve_cases op db :
  match op with
  | OpStore now tr (WellFormed b) => serve op db = call Store now tr b db
  | OpUpdate now (WellFormed b) => serve op db = call Update now (λ _, true) b db
  | OpDelete sid => serve op db = handle (EnrollmentController.delete sid) db
  | _ => serve op db = (Responded InvalidInput, db, [])
  end.
Proof. by destruct op as [? ? [|?]|? [|?]|?]. Qed.

Lemma step_serve db op : step db op = (serve op db).1.2.
Proof. by destruct op. Qed.

(** Rewrites a call of a handler into its decision tree and splits it into
    its branches. *)
Ltac serve_branches op db H :=
  pose proof (serve_cases op db) as H;
  destruct op as [? ? [|?]|? [|?]|?];
  cbv beta iota zeta in H;
  rewrite ?store_eq, ?update_eq, ?delete_eq in H; cbv beta iota zeta in H;
  repeat case_match.

(** X5: a call of [store], [update] or [delete] that answers with a status
    other than 200 leaves the database unchanged and has made lookups only:
    nothing was created, updated or destroyed and no mail was sent. *)
Theorem error_persists_nothing op db r db' c :
  serve op db = (Responded r, db', c) →
  status r ≠ 200 →
  db' = db ∧ Forall (λ x, isLookup x = true) c.
Proof.
  intros Hcall Hstatus. serve_branches op db H;
    rewrite H in Hcall; unfold ok in Hcall; simplify_eq; simpl in *;
    try done; repeat constructor.
Qed.

Lemma error_persists_nothing_witness :
  (serve (OpStore Sample.nextYear Sample.up (WellFormed Demo.body7)) Demo.db
   = (Responded PastDate, Demo.db,
      [CallEnrollmentFindOne 7; CallStudentFindByPk 7; CallPlanFindByPk 2])
   ∧ status PastDate ≠ 200)
  ∧ Demo.db = Demo.db
  ∧ Forall (λ x, isLookup x = true)
      [CallEnrollmentFindOne 7; CallStudentFindByPk 7; CallPlanFindByPk 2].
Proof.
  assert (serve (OpStore Sample.nextYear Sample.up (WellFormed Demo.body7))
            Demo.db
          = (Responded PastDate, Demo.db,
             [CallEnrollmentFindOne 7; CallStudentFindByPk 7;
              CallPlanFindByPk 2])) as H
    by (vm_compute; reflexivity).
  assert (status PastDate ≠ 200) as Hs by discriminate.
  split; [done|].
  exact (error_persists_nothing _ _ _ _ _ H Hs).
Defined.

(** X6: every response of [store], [update] and [delete] has status 200,
    400 or 401; it carries an enrollment when the status is 200 and an error
    message otherwise. *)
Theorem response_statuses op db r db' c :
  serve op db = (Responded r, db', c) →
  (status r = 200 ∧ ∃ e, body r = JsonEnrollment e)
  ∨ ((status r = 400 ∨ status r = 401) ∧ ∃ msg, body r = JsonError msg).
Proof.
  intros Hcall. serve_branches op db H;
    rewrite H in Hcall; unfold ok in Hcall; simplify_eq; simpl; eauto 6.
Qed.

Lemma response_statuses_witness :
  serve (OpDelete 8) Demo.db
  = (ok (Enrollment.mk 5 Demo.bobValues),
     setEnrollments Demo.db ∅,
     [CallEnrollmentFindOne 8; CallEnrollmentDestroy 8])
  ∧ ((status (res_json (JsonEnrollment (Enrollment.mk 5 Demo.bobValues))) = 200
      ∧ ∃ e, body (res_json (JsonEnrollment (Enrollment.mk 5 Demo.bobValues)))
             = JsonEnrollment e)
     ∨ ((status (res_json (JsonEnrollment (Enrollment.mk 5 Demo.bobValues))) = 400
         ∨ status (res_json (JsonEnrollment (Enrollment.mk 5 Demo.bobValues)))
           = 401)
        ∧ ∃ msg, body (res_json (JsonEnrollment (Enrollment.mk 5 Demo.bobValues)))
                 = JsonError msg)).
Proof.
  assert (serve (OpDelete 8) Demo.db
          = (ok (Enrollment.mk 5 Demo.bobValues), setEnrollments Demo.db ∅,
             [CallEnrollmentFindOne 8; CallEnrollmentDestroy 8])) as H
    by (vm_compute; reflexivity).
  split; [exact H|].
  exact (response_statuses _ _ _ _ _ H).
Defined.

(** ** What a call leaves alone *)

(** X7: a call of [store], [update] or [delete] leaves the student and plan
    tables as they are and touches no enrollment of a student other than
    the one the call is about, however the call ends. *)
Theorem other_students_untouched op db k v :
  (∀ sid, opStudent op = Some sid → Enrollment.student_id v ≠ sid) →
  students (serve op db).1.2 = students db
  ∧ plans (serve op db).1.2 = plans db
  ∧ (enrollments (serve op db).1.2 !! k = Some v
     ↔ enrollments db !! k = Some v).
Proof.
  intros Hother. serve_branches op db H; rewrite H; simpl;
    (split; [done|]); (split; [done|]); try done;
    specialize (Hother _ eq_refl).
  - (* store, the confirmation was delivered *)
    rewrite lookup_insert. case_decide as Hk; [|done].
    subst k. rewrite nextKey_fresh. split; [|done].
    intros [= <-]. by destruct Hother.
  - (* store, the mailer failed *)
    rewrite lookup_insert. case_decide as Hk; [|done].
    subst k. rewrite nextKey_fresh. split; [|done].
    intros [= <-]. by destruct Hother.
  - (* update *)
    match goal with Hrow : rowOfStudent _ _ = Some _ |- _ =>
      apply rowOfStudent_Some in Hrow as [Hold Hsid] end.
    rewrite lookup_alter. case_decide as Hk; [|done]. subst k.
    rewrite Hold. simpl. split; intros [= <-]; by destruct Hother.
  - (* delete *)
    rewrite destroy_lookup. tauto.
Qed.

Lemma other_students_untouched_witness :
  (∀ sid, opStudent (OpStore Sample.newYear Sample.down (WellFormed Demo.body7))
          = Some sid →
          Enrollment.student_id Demo.bobValues ≠ sid)
  ∧ students (serve (OpStore Sample.newYear Sample.down
                       (WellFormed Demo.body7)) Demo.db).1.2
    = students Demo.db
  ∧ plans (serve (OpStore Sample.newYear Sample.down
                    (WellFormed Demo.body7)) Demo.db).1.2
    = plans Demo.db
  ∧ (enrollments (serve (OpStore Sample.newYear Sample.down
                           (WellFormed Demo.body7)) Demo.db).1.2 !! 5
     = Some Demo.bobValues
     ↔ enrollments Demo.db !! 5 = Some Demo.bobValues).
Proof.
  assert (∀ sid,
            opStudent (OpStore Sample.newYear Sample.down
                         (WellFormed Demo.body7)) = Some sid →
            Enrollment.student_id Demo.bobValues ≠ sid) as H
    by (intros sid [= <-]; discriminate).
  split; [exact H|].
  exact (other_students_untouched _ Demo.db 5 Demo.bobValues H).
Defined.

(** X8: along any sequence of [store], [update] and [delete] calls the
    student and plan tables stay what they were. *)
Theorem run_keeps_students_plans ops db :
  students (run ops db) = students db ∧ plans (run ops db) = plans db.
Proof.
  revert db. induction ops as [|op ops IH]; intros db; [done|].
  simpl. destruct (IH (step db op)) as [-> ->].
  rewrite step_serve.
  serve_branches op db H; by rewrite H.
Qed.

Lemma insert_nextKey_keeps (t : gmap Z Enrollment.values) v :
  (∀ k x, t !! k = Some x → <[nextKey t := v]> t !! k = Some x)
  ∧ size (<[nextKey t := v]> t) = S (size t).
Proof.
  split.
  - intros k x Hkx. rewrite lookup_insert_ne; [done|].
    intros <-. by rewrite nextKey_fresh in Hkx.
  - apply map_size_insert_None, nextKey_fresh.
Qed.

(** X9: [store] never overwrites or removes a row: every enrollment of the
    table is still there, unchanged, after the call, however it ends, and
    the table has grown by at most one row. *)
Theorem store_keeps_rows now tr req db :
  let db' := (handle (EnrollmentController.store now tr req) db).1.2 in
  (∀ k v, enrollments db !! k = Some v → enrollments db' !! k = Some v)
  ∧ (size (enrollments db) ≤ size (enrollments db')
     ≤ S (size (enrollments db)))%nat.
Proof.
  destruct req as [|b]; [simpl; split; [done|lia]|].
  change (handle (EnrollmentController.store now tr (WellFormed b)) db)
    with (call Store now tr b db).
  rewrite store_eq. simpl.
  repeat case_match; simpl; try (split; [done|lia]);
    match goal with |- context [<[_ := ?v]> _] =>
      destruct (insert_nextKey_keeps (enrollments db) v) as [Hkeep ->] end;
    (split; [exact Hkeep|lia]).
Qed.

(** ** How the calls compose *)

Lemma rowOfStudent_insert_new sid k v (t : gmap Z Enrollment.values) :
  rowOfStudent sid t = None →
  Enrollment.student_id v = sid →
  rowOfStudent sid (<[k := v]> t) = Some (Enrollment.mk k v).
Proof.
  intros Hnone Hsid.
  destruct (rowOfStudent sid (<[k := v]> t)) as [[k' v']|] eqn:Hrow.
  - apply rowOfStudent_Some in Hrow as [Hlook Hsid']. simpl in *.
    rewrite lookup_insert in Hlook. case_decide as Hk.
    + by simplify_eq.
    + by destruct (rowOfStudent_None _ _ Hnone _ _ Hlook).
  - destruct (rowOfStudent_None _ _ Hrow k v); [|done].
    by rewrite lookup_insert_eq.
Qed.

Lemma destroy_insert_new sid k v (t : gmap Z Enrollment.values) :
  rowOfStudent sid t = None →
  t !! k = None →
  Enrollment.student_id v = sid →
  filter (λ kv, Enrollment.student_id kv.2 ≠ sid) (<[k := v]> t) = t.
Proof.
  intros Hnone Hfresh Hsid. apply map_eq. intros i. apply option_eq. intros x.
  rewrite destroy_lookup, lookup_insert. case_decide as Hi.
  - subst i. rewrite Hfresh. split; [|done]. intros [[= <-] Hne]. done.
  - split; [by intros [? _]|]. intros Hix. split; [done|].
    by apply (rowOfStudent_None _ _ Hnone i).
Qed.

(** X10: [delete] undoes [store]: when a call of [store] has created an
    enrollment, whether its mail was delivered or not, a following [delete]
    for the same student answers with that enrollment and puts the database
    back to what it was before the [store]. *)
Theorem store_then_delete now tr b db o db' c v :
  call Store now tr b db = (o, db', c) →
  CallEnrollmentCreate v ∈ c →
  handle (EnrollmentController.delete (student_id b)) db'
  = (ok (Enrollment.mk (nextKey (enrollments db)) v), db,
     [CallEnrollmentFindOne (student_id b);
      CallEnrollmentDestroy (student_id b)]).
Proof.
  rewrite store_eq. simpl.
  destruct (rowOfStudent _ _) eqn:Hrow; [intros [= <- <- <-] Hc; in_calls Hc|].
  destruct (students db !! _) as [s|]; [|intros [= <- <- <-] Hc; in_calls Hc].
  destruct (plans db !! _) as [p|]; [|intros [= <- <- <-] Hc; in_calls Hc].
  destruct (isBefore _ _); [intros [= <- <- <-] Hc; in_calls Hc|].
  assert (handle (EnrollmentController.delete (student_id b))
            (setEnrollments db
               (<[nextKey (enrollments db) := derived b p]> (enrollments db)))
          = (ok (Enrollment.mk (nextKey (enrollments db)) (derived b p)), db,
             [CallEnrollmentFindOne (student_id b);
              CallEnrollmentDestroy (student_id b)])) as Hdel.
  { rewrite delete_eq. simpl.
    rewrite (rowOfStudent_insert_new _ _ (derived b p) _ Hrow eq_refl).
    rewrite (destroy_insert_new _ _ (derived b p) _ Hrow (nextKey_fresh _)
               eq_refl).
    by destruct db. }
  destruct (tr _); intros [= <- <- <-] Hc; in_calls Hc;
    injection Hc as ->; exact Hdel.
Qed.

Lemma store_then_delete_witness :
  (call Store Sample.newYear Sample.down Demo.body7 Demo.db
   = (Rejected (MailRejected
                  (confirmation Sample.ana Sample.gold
                     (Enrollment.mk 6 Sample.values1))),
      setEnrollments Demo.db (<[6 := Sample.values1]> (enrollments Demo.db)),
      [CallEnrollmentFindOne 7; CallStudentFindByPk 7; CallPlanFindByPk 2;
       CallEnrollmentCreate Sample.values1;
       CallSendMail (confirmation Sample.ana Sample.gold
                       (Enrollment.mk 6 Sample.values1))])
   ∧ CallEnrollmentCreate Sample.values1
     ∈ [CallEnrollmentFindOne 7; CallStudentFindByPk 7; CallPlanFindByPk 2;
        CallEnrollmentCreate Sample.values1;
        CallSendMail (confirmation Sample.ana Sample.gold
                        (Enrollment.mk 6 Sample.values1))])
  ∧ handle (EnrollmentController.delete (student_id Demo.body7))
      (setEnrollments Demo.db (<[6 := Sample.values1]> (enrollments Demo.db)))
    = (ok (Enrollment.mk (nextKey (enrollments Demo.db)) Sample.values1),
       Demo.db,
       [CallEnrollmentFindOne (student_id Demo.body7);
        CallEnrollmentDestroy (student_id Demo.body7)]).
Proof.
  assert (call Store Sample.newYear Sample.down Demo.body7 Demo.db
   = (Rejected (MailRejected
                  (confirmation Sample.ana Sample.gold
                     (Enrollment.mk 6 Sample.values1))),
      setEnrollments Demo.db (<[6 := Sample.values1]> (enrollments Demo.db)),
      [CallEnrollmentFindOne 7; CallStudentFindByPk 7; CallPlanFindByPk 2;
       CallEnrollmentCreate Sample.values1;
       CallSendMail (confirmation Sample.ana Sample.gold
                       (Enrollment.mk 6 Sample.values1))])) as H
    by (vm_compute; reflexivity).
  assert (CallEnrollmentCreate Sample.values1
     ∈ [CallEnrollmentFindOne 7; CallStudentFindByPk 7; CallPlanFindByPk 2;
        CallEnrollmentCreate Sample.values1;
        CallSendMail (confirmation Sample.ana Sample.gold
                        (Enrollment.mk 6 Sample.values1))]) as Hc
    by (do 3 apply list_elem_of_further; apply list_elem_of_here).
  split; [done|].
  exact (store_then_delete _ _ _ _ _ _ _ _ H Hc).
Defined.

Lemma delete_not_enrolled sid db :
  ¬ enrolled sid (handle (EnrollmentController.delete sid) db).1.2.
Proof.
  rewrite delete_eq. destruct (rowOfStudent _ _) eqn:Hrow; simpl.
  - intros (k & v & Hkv & Hv). simpl in Hkv.
    apply destroy_lookup in Hkv. tauto.
  - by apply rowOfStudent_not_enrolled.
Qed.

(** X11: after a call of [delete], however it ended, the student is not
    enrolled: a second [delete] and an [update] for that student answer
    NotEnrolled and change nothing, and a [store] for that student is not
    refused with AlreadyEnrolled. *)
Theorem after_delete sid db :
  let db' := (handle (EnrollmentController.delete sid) db).1.2 in
  handle (EnrollmentController.delete sid) db'
  = (Responded NotEnrolled, db', [CallEnrollmentFindOne sid])
  ∧ (∀ now b, student_id b = sid →
       handle (EnrollmentController.update now (WellFormed b)) db'
       = (Responded NotEnrolled, db', [CallEnrollmentFindOne sid]))
  ∧ (∀ now tr b, student_id b = sid →
       (call Store now tr b db').1.1 ≠ Responded AlreadyEnrolled).
Proof.
  intros db'. pose proof (delete_not_enrolled sid db) as Hno.
  fold db' in Hno. apply rowOfStudent_not_enrolled in Hno.
  split; [by rewrite delete_eq, Hno|]. split.
  - intros now b <-.
    change (handle (EnrollmentController.update now (WellFormed b)) db')
      with (call Update now (λ _, true) b db').
    rewrite update_eq. simpl. by rewrite Hno.
  - intros now tr b <-. rewrite store_eq. simpl. rewrite Hno.
    repeat case_match; discriminate.
Qed.

Lemma after_delete_witness :
  student_id Demo.body8 = 8
  ∧ handle (EnrollmentController.delete 8) (setEnrollments Demo.db ∅)
    = (Responded NotEnrolled, setEnrollments Demo.db ∅,
       [CallEnrollmentFindOne 8])
  ∧ handle (EnrollmentController.update Sample.newYear (WellFormed Demo.body8))
      (setEnrollments Demo.db ∅)
    = (Responded NotEnrolled, setEnrollments Demo.db ∅,
       [CallEnrollmentFindOne 8])
  ∧ (call Store Sample.newYear Sample.up Demo.body8
       (setEnrollments Demo.db ∅)).1.1
    ≠ Responded AlreadyEnrolled.
Proof.
  assert ((handle (EnrollmentController.delete 8) Demo.db).1.2
          = setEnrollments Demo.db ∅) as Hdb by (vm_compute; reflexivity).
  pose proof (after_delete 8 Demo.db) as H. simpl in H. rewrite Hdb in H.
  destruct H as (H1 & H2 & H3).
  split; [reflexivity|]. split; [exact H1|]. split.
  - exact (H2 Sample.newYear Demo.body8 eq_refl).
  - exact (H3 Sample.newYear Sample.up Demo.body8 eq_refl).
Defined.

(** X12: an [update] that succeeds after a successful [store] for the same
    student rewrites the very row that [store] created: the enrollment it
    answers with has the id that [store] gave, and the table is the one
    before the [store] with that one row added. *)
Theorem store_then_update now tr b db e db' c now2 b2 e2 db'' c2 :
  call Store now tr b db = (ok e, db', c) →
  student_id b2 = student_id b →
  handle (EnrollmentController.update now2 (WellFormed b2)) db'
  = (ok e2, db'', c2) →
  Enrollment.id e2 = Enrollment.id e
  ∧ enrollments db''
    = <[Enrollment.id e := Enrollment.dataValues e2]> (enrollments db)
  ∧ enrollments db !! Enrollment.id e = None.
Proof.
  intros (s & p & _ & _ & _ & Hv & -> & Hrow & Hfresh & _)%call_ok_inv Hsame
         Hupd.
  change (call Update now2 (λ _, true) b2
            (setEnrollments db
               (<[Enrollment.id e := derived b p]> (enrollments db)))
          = (ok e2, db'', c2)) in Hupd.
  apply call_ok_inv in Hupd
    as (s2 & p2 & _ & _ & _ & Hv2 & -> & (old & Hold & Hid) & _).
  simpl in Hold. rewrite Hsame in Hold.
  rewrite (rowOfStudent_insert_new _ _ (derived b p) _ Hrow eq_refl) in Hold.
  injection Hold as <-. simpl in Hid.
  split; [done|]. split; [|done].
  simpl. rewrite Hid, Hv2. apply insert_insert_eq.
Qed.

Lemma store_then_update_witness :
  (call Store Sample.newYear Sample.up Sample.body Sample.db0
   = (ok Sample.e1, Sample.db1, Sample.calls1)
   ∧ student_id Sample.body2 = student_id Sample.body
   ∧ handle (EnrollmentController.update Sample.newYear
               (WellFormed Sample.body2)) Sample.db1
     = (ok Sample.e2, Sample.db2, Sample.calls2))
  ∧ Enrollment.id Sample.e2 = Enrollment.id Sample.e1
  ∧ enrollments Sample.db2
    = <[Enrollment.id Sample.e1 := Enrollment.dataValues Sample.e2]>
        (enrollments Sample.db0)
  ∧ enrollments Sample.db0 !! Enrollment.id Sample.e1 = None.
Proof.
  assert (call Store Sample.newYear Sample.up Sample.body Sample.db0
          = (ok Sample.e1, Sample.db1, Sample.calls1)) as H1
    by (vm_compute; reflexivity).
  assert (handle (EnrollmentController.update Sample.newYear
                    (WellFormed Sample.body2)) Sample.db1
          = (ok Sample.e2, Sample.db2, Sample.calls2)) as H2
    by (vm_compute; reflexivity).
  split; [done|].
  exact (store_then_update Sample.newYear Sample.up Sample.body Sample.db0
           Sample.e1 Sample.db1 Sample.calls1 Sample.newYear Sample.body2
           Sample.e2 Sample.db2 Sample.calls2 H1 eq_refl H2).
Defined.

Lemma rowOfStudent_unique sid db old k v :
  onePerStudent db →
  rowOfStudent sid (enrollments db) = Some old →
  enrollments db !! k = Some v →
  Enrollment.student_id v = sid →
  old = Enrollment.mk k v.
Proof.
  intros Hinv [Hold Hsid]%rowOfStudent_Some Hkv Hv.
  assert (Enrollment.id old = k) as <-
    by (eapply Hinv; [exact Hold|exact Hkv|congruence]).
  destruct old as [i w]. simpl in *. congruence.
Qed.

(** X13: with at most one enrollment per student, a successful [update] can
    be repeated: the same body at the same clock gets the same answer and
    leaves the database as the first call left it. *)
Theorem update_twice now b db e db' c :
  onePerStudent db →
  handle (EnrollmentController.update now (WellFormed b)) db = (ok e, db', c) →
  handle (EnrollmentController.update now (WellFormed b)) db' = (ok e, db', c).
Proof.
  intros Hinv Hcall.
  pose proof (update_onePerStudent now (WellFormed b) db Hinv) as Hinv'.
  rewrite Hcall in Hinv'. simpl in Hinv'.
  change (call Update now (λ _, true) b db = (ok e, db', c)) in Hcall.
  change (call Update now (λ _, true) b db' = (ok e, db', c)).
  apply call_ok_inv in Hcall
    as (s & p & Hs & Hp & Hb & Hv & -> & (old & Hold & Hid) & ->).
  rewrite update_eq. simpl.
  destruct (rowOfStudent (student_id b)
              (<[Enrollment.id e := derived b p]> (enrollments db)))
    as [old'|] eqn:Hold'.
  2:{ destruct (rowOfStudent_None _ _ Hold' (Enrollment.id e) (derived b p));
        [|done]. simpl. by rewrite lookup_insert_eq. }
  assert (old' = Enrollment.mk (Enrollment.id e) (derived b p)) as ->.
  { eapply rowOfStudent_unique; [exact Hinv'|exact Hold'| |done].
    simpl. by rewrite lookup_insert_eq. }
  rewrite Hs, Hp, Hb. simpl. destruct e as [i w]. simpl in *. subst w.
  repeat f_equal. apply map_eq. intros k.
  rewrite lookup_alter, lookup_insert.
  repeat case_decide; simplify_eq; try done. by rewrite lookup_insert_eq.
Qed.

Lemma update_twice_witness :
  (onePerStudent Sample.db1
   ∧ handle (EnrollmentController.update Sample.newYear
               (WellFormed Sample.body2)) Sample.db1
     = (ok Sample.e2, Sample.db2, Sample.calls2))
  ∧ handle (EnrollmentController.update Sample.newYear
              (WellFormed Sample.body2)) Sample.db2
    = (ok Sample.e2, Sample.db2, Sample.calls2).
Proof.
  assert (onePerStudent Sample.db1) as Hinv.
  { intros i j v w Hi Hj _. simpl in Hi, Hj.
    apply lookup_singleton_Some in Hi as [<- _].
    by apply lookup_singleton_Some in Hj as [<- _]. }
  assert (handle (EnrollmentController.update Sample.newYear
                    (WellFormed Sample.body2)) Sample.db1
          = (ok Sample.e2, Sample.db2, Sample.calls2)) as H
    by (vm_compute; reflexivity).
  split; [done|].
  exact (update_twice _ _ _ _ _ _ Hinv H).
Defined.

(** X14: with at most one enrollment per student, a successful [delete]
    removes the row it answers with and no other: the table afterwards is
    the table before without that one key. *)
Theorem delete_removes_one sid db e db' c :
  onePerStudent db →
  handle (EnrollmentController.delete sid) db = (ok e, db', c) →
  enrollments db' = delete (Enrollment.id e) (enrollments db)
  ∧ size (enrollments db) = S (size (enrollments db')).
Proof.
  intros Hinv. rewrite delete_eq.
  destruct (rowOfStudent _ _) as [old|] eqn:Hold; [|discriminate].
  intros [= <- <- <-]. simpl.
  pose proof (rowOfStudent_Some _ _ _ Hold) as [Hrow Hsid].
  assert (filter (λ kv, Enrollment.student_id kv.2 ≠ sid) (enrollments db)
          = delete (Enrollment.id old) (enrollments db)) as ->.
  { apply map_eq. intros k. apply option_eq. intros v.
    rewrite destroy_lookup, lookup_delete. case_decide as Hk.
    - subst k. rewrite Hrow. split; [|done]. intros [[= <-] Hne]. done.
    - split; [by intros [? _]|]. intros Hkv. split; [done|].
      intros Hv. apply Hk. symmetry.
      eapply Hinv; [exact Hkv|exact Hrow|congruence]. }
  split; [done|].
  rewrite <- (insert_delete_id (enrollments db) _ _ Hrow) at 1.
  apply map_size_insert_None, lookup_delete_eq.
Qed.

Lemma delete_removes_one_witness :
  (onePerStudent Demo.db
   ∧ handle (EnrollmentController.delete 8) Demo.db
     = (ok (Enrollment.mk 5 Demo.bobValues), setEnrollments Demo.db ∅,
        [CallEnrollmentFindOne 8; CallEnrollmentDestroy 8]))
  ∧ enrollments (setEnrollments Demo.db ∅)
    = delete (Enrollment.id (Enrollment.mk 5 Demo.bobValues))
        (enrollments Demo.db)
  ∧ size (enrollments Demo.db)
    = S (size (enrollments (setEnrollments Demo.db ∅))).
Proof.
  assert (onePerStudent Demo.db) as Hinv.
  { intros i j v w Hi Hj _. simpl in Hi, Hj.
    apply lookup_singleton_Some in Hi as [<- _].
    by apply lookup_singleton_Some in Hj as [<- _]. }
  assert (handle (EnrollmentController.delete 8) Demo.db
          = (ok (Enrollment.mk 5 Demo.bobValues), setEnrollments Demo.db ∅,
             [CallEnrollmentFindOne 8; CallEnrollmentDestroy 8])) as H
    by (vm_compute; reflexivity).
  split; [done|].
  exact (delete_removes_one _ _ _ _ _ Hinv H).
Defined.

(** ** The confirmation mail *)

(** X15: when [store] sends a mail, it is its last call and follows the
    creation of the enrollment, which is in the database by then; the mail
    goes to the name and address of the student row, names the plan by its
    title, and quotes the price, the start date and the end date of the
    stored enrollment, the start date as the client gave it. *)
Theorem store_mail now tr b db o db' c msg :
  call Store now tr b db = (o, db', c) →
  CallSendMail msg ∈ c →
  ∃ s p k,
    students db !! student_id b = Some s
    ∧ plans db !! plan_id b = Some p
    ∧ enrollments db !! k = None
    ∧ enrollments db' !! k = Some (derived b p)
    ∧ c = [CallEnrollmentFindOne (student_id b);
           CallStudentFindByPk (student_id b);
           CallPlanFindByPk (plan_id b);
           CallEnrollmentCreate (derived b p);
           CallSendMail msg]
    ∧ Mail.to msg = Student.name s +:+ " <" +:+ Student.email s +:+ ">"
    ∧ Mail.subject msg = "Matricula concluida"
    ∧ Mail.template msg = "enrollment"
    ∧ Mail.student (Mail.ctx msg) = Student.name s
    ∧ Mail.plan (Mail.ctx msg) = Plan.title p
    ∧ Mail.start (Mail.ctx msg) = start_date b
    ∧ Mail.end_ (Mail.ctx msg)
      = addMonths (startOfHour (start_date b)) (Plan.duration p)
    ∧ Mail.price (Mail.ctx msg)
      = PrimFloat.mul (Plan.price p) (number_of_Z (Plan.duration p)).
Proof.
  rewrite store_eq. simpl.
  destruct (rowOfStudent _ _); [intros [= <- <- <-] Hc; in_calls Hc|].
  destruct (students db !! _) as [s|]; [|intros [= <- <- <-] Hc; in_calls Hc].
  destruct (plans db !! _) as [p|]; [|intros [= <- <- <-] Hc; in_calls Hc].
  destruct (isBefore _ _); [intros [= <- <- <-] Hc; in_calls Hc|].
  destruct (tr _); intros [= <- <- <-] Hc; in_calls Hc; injection Hc as ->;
    exists s, p, (nextKey (enrollments db)); simpl;
    rewrite lookup_insert_eq, nextKey_fresh; done.
Qed.

Lemma store_mail_witness :
  (call Store Sample.newYear Sample.up Sample.body Sample.db0
   = (ok Sample.e1, Sample.db1, Sample.calls1)
   ∧ CallSendMail Sample.mail1 ∈ Sample.calls1)
  ∧ ∃ s p k,
    students Sample.db0 !! student_id Sample.body = Some s
    ∧ plans Sample.db0 !! plan_id Sample.body = Some p
    ∧ enrollments Sample.db0 !! k = None
    ∧ enrollments Sample.db1 !! k = Some (derived Sample.body p)
    ∧ Sample.calls1
      = [CallEnrollmentFindOne (student_id Sample.body);
         CallStudentFindByPk (student_id Sample.body);
         CallPlanFindByPk (plan_id Sample.body);
         CallEnrollmentCreate (derived Sample.body p);
         CallSendMail Sample.mail1]
    ∧ Mail.to Sample.mail1
      = Student.name s +:+ " <" +:+ Student.email s +:+ ">"
    ∧ Mail.subject Sample.mail1 = "Matricula concluida"
    ∧ Mail.template Sample.mail1 = "enrollment"
    ∧ Mail.student (Mail.ctx Sample.mail1) = Student.name s
    ∧ Mail.plan (Mail.ctx Sample.mail1) = Plan.title p
    ∧ Mail.start (Mail.ctx Sample.mail1) = start_date Sample.body
    ∧ Mail.end_ (Mail.ctx Sample.mail1)
      = addMonths (startOfHour (start_date Sample.body)) (Plan.duration p)
    ∧ Mail.price (Mail.ctx Sample.mail1)
      = PrimFloat.mul (Plan.price p) (number_of_Z (Plan.duration p)).
Proof.
  assert (call Store Sample.newYear Sample.up Sample.body Sample.db0
          = (ok Sample.e1, Sample.db1, Sample.calls1)) as H
    by (vm_compute; reflexivity).
  assert (CallSendMail Sample.mail1 ∈ Sample.calls1) as Hm
    by (unfold Sample.calls1; do 4 apply list_elem_of_further;
        apply list_elem_of_here).
  split; [done|].
  exact (store_mail Sample.newYear Sample.up Sample.body Sample.db0 _
           Sample.db1 Sample.calls1 Sample.mail1 H Hm).
Defined.

(** ** The hour of the start date *)

Lemma getTime_startOfHour d : getTime (startOfHour d) = getTime d - intoHour d.
Proof. unfold getTime, intoHour. simpl. lia. Qed.

Lemma validDate_intoHour d : validDate d = true → 0 ≤ intoHour d < 3600000.
Proof.
  unfold validDate, intoHour. intros Hd.
  repeat (apply andb_prop in Hd as [Hd ?]). lia.
Qed.

Lemma call_past m now tr b db :
  isBefore (startOfHour (start_date b)) now = true →
  (call m now tr b db).1.2 = db ∧ ∀ e, (call m now tr b db).1.1 ≠ ok e.
Proof.
  intros Hpast.
  destruct m; [rewrite store_eq|rewrite update_eq]; simpl; rewrite Hpast;
    repeat case_match; done.
Qed.

(** X16: a well-formed start date that lies before the clock is never
    accepted: truncating it to the hour only moves it further back, so
    [store] and [update] do not answer with an enrollment and leave the
    database unchanged. *)
Theorem past_start_never_accepted m now tr b db :
  validDate (start_date b) = true →
  getTime (start_date b) < getTime now →
  (call m now tr b db).1.2 = db ∧ ∀ e, (call m now tr b db).1.1 ≠ ok e.
Proof.
  intros Hvalid%validDate_intoHour Hpast. apply call_past, isBefore_lt.
  rewrite getTime_startOfHour. lia.
Qed.

Lemma past_start_never_accepted_witness :
  (validDate (start_date Demo.body8) = true
   ∧ getTime (start_date Demo.body8) < getTime Sample.nextYear)
  ∧ (call Update Sample.nextYear Sample.up Demo.body8 Demo.db).1.2 = Demo.db
  ∧ ∀ e, (call Update Sample.nextYear Sample.up Demo.body8 Demo.db).1.1 ≠ ok e.
Proof.
  assert (validDate (start_date Demo.body8) = true) as Hv by (by vm_compute).
  assert (getTime (start_date Demo.body8) < getTime Sample.nextYear) as Hp
    by (by vm_compute).
  split; [done|].
  exact (past_start_never_accepted Update Sample.nextYear Sample.up Demo.body8
           Demo.db Hv Hp).
Defined.

(** X17: a start date in the hour the clock is in is refused as past
    whenever the clock is not exactly on the hour, also when the start date
    itself is later than the clock: with the checks before the date passed,
    [store] and [update] answer PastDate. *)
Theorem current_hour_rejected m now tr b db :
  year (start_date b) = year now → month (start_date b) = month now →
  day (start_date b) = day now → hours (start_date b) = hours now →
  0 < intoHour now →
  checksPass m b db →
  call m now tr b db
  = (Responded PastDate, db,
     [CallEnrollmentFindOne (student_id b); CallStudentFindByPk (student_id b);
      CallPlanFindByPk (plan_id b)]).
Proof.
  intros Hy Hm Hd Hh Hnow (Hcheck & [s Hs] & [p Hp]).
  assert (isBefore (startOfHour (start_date b)) now = true) as Hpast.
  { apply isBefore_lt. unfold getTime, intoHour in *. simpl.
    rewrite Hy, Hm, Hd, Hh. lia. }
  apply (enrollmentCheck_row m) in Hcheck.
  destruct m; [rewrite store_eq|rewrite update_eq]; simpl.
  - by rewrite Hcheck, Hs, Hp, Hpast.
  - destruct Hcheck as [old ->]. by rewrite Hs, Hp, Hpast.
Qed.

Lemma current_hour_rejected_witness :
  (year (start_date Demo.body7) = year Demo.quarterPast
   ∧ month (start_date Demo.body7) = month Demo.quarterPast
   ∧ day (start_date Demo.body7) = day Demo.quarterPast
   ∧ hours (start_date Demo.body7) = hours Demo.quarterPast
   ∧ 0 < intoHour Demo.quarterPast
   ∧ checksPass Store Demo.body7 Demo.db
   ∧ getTime Demo.quarterPast < getTime (start_date Demo.body7))
  ∧ call Store Demo.quarterPast Sample.up Demo.body7 Demo.db
    = (Responded PastDate, Demo.db,
       [CallEnrollmentFindOne 7; CallStudentFindByPk 7; CallPlanFindByPk 2]).
Proof.
  assert (checksPass Store Demo.body7 Demo.db) as Hc.
  { split; [|split; eexists; vm_compute; reflexivity].
    intros (k & v & Hkv & Hv). simpl in Hkv.
    apply lookup_singleton_Some in Hkv as [_ <-]. discriminate. }
  assert (0 < intoHour Demo.quarterPast) as Hnow by (by vm_compute).
  assert (getTime Demo.quarterPast < getTime (start_date Demo.body7)) as Hlater
    by (by vm_compute).
  split; [by repeat (split; [reflexivity || assumption|])|].
  exact (current_hour_rejected Store Demo.quarterPast Sample.up Demo.body7
           Demo.db eq_refl eq_refl eq_refl eq_refl Hnow Hc).
Defined.

(** ** The listing *)

Lemma findAll_elem_of db r :
  r ∈ EnrollmentQuery.findAll db
  ↔ ∃ k v,
      enrollments db !! k = Some v
      ∧ r = {| Listed.enrollment := Enrollment.mk k v;
               Listed.student :=
                 (λ s, IncludedStudent.mk (Enrollment.student_id v)
                         (Student.name s) (Student.email s))
                 <$> students db !! Enrollment.student_id v;
               Listed.plan :=
                 (λ p, IncludedPlan.mk (Enrollment.plan_id v)
                         (Plan.title p) (Plan.duration p))
                 <$> plans db !! Enrollment.plan_id v |}.
Proof.
  unfold EnrollmentQuery.findAll. rewrite list_elem_of_fmap. split.
  - intros ([k v] & -> & Hkv%elem_of_map_to_list). by exists k, v.
  - intros (k & v & Hkv & ->). exists (k, v). split; [done|].
    by apply elem_of_map_to_list.
Qed.

(** X18: [index] answers 200 with one entry per row of the enrollment
    table: each enrollment of the table is listed, nothing else is, no id
    is listed twice, and the database is left as it was. *)
Theorem index_lists_table db :
  (index db).1.1 = 200
  ∧ (index db).2 = db
  ∧ length (index db).1.2 = size (enrollments db)
  ∧ NoDup ((λ r, Enrollment.id (Listed.enrollment r)) <$> (index db).1.2)
  ∧ (∀ k v, enrollments db !! k = Some v
            ↔ ∃ r, r ∈ (index db).1.2
                   ∧ Listed.enrollment r = Enrollment.mk k v).
Proof.
  simpl. split; [done|]. split; [done|]. split; [|split].
  - unfold EnrollmentQuery.findAll.
    by rewrite length_fmap, length_map_to_list.
  - unfold EnrollmentQuery.findAll. rewrite <- list_fmap_compose.
    apply (NoDup_fst_map_to_list (enrollments db)).
  - intros k v. split.
    + intros Hkv. eexists. split; [apply findAll_elem_of; eauto|done].
    + intros (r & (k' & v' & Hkv & ->)%findAll_elem_of & Hr).
      simpl in Hr. by simplify_eq.
Qed.

Example index_sample :
  index Demo.db
  = (200,
     [ {| Listed.enrollment := Enrollment.mk 5 Demo.bobValues;
          Listed.student :=
            Some (IncludedStudent.mk 8 "Bob" "bob@example.org");
          Listed.plan := Some (IncludedPlan.mk 1 "Start" 1) |} ],
     Demo.db).
Proof. vm_compute. reflexivity. Qed.

(** X20: the listing follows the calls: the enrollment a successful [store]
    answers with is listed afterwards, with its student and its plan, and
    after a [delete] no enrollment of the student is listed any more. *)
Theorem index_after_calls :
  (∀ now tr b db e db' c,
     call Store now tr b db = (ok e, db', c) →
     ∃ s p,
       students db !! student_id b = Some s
       ∧ plans db !! plan_id b = Some p
       ∧ {| Listed.enrollment := e;
            Listed.student :=
              Some (IncludedStudent.mk (student_id b) (Student.name s)
                      (Student.email s));
            Listed.plan :=
              Some (IncludedPlan.mk (plan_id b) (Plan.title p)
                      (Plan.duration p)) |} ∈ (index db').1.2
       ∧ length (index db').1.2 = S (length (index db).1.2))
  ∧ (∀ sid db r,
       r ∈ (index (handle (EnrollmentController.delete sid) db).1.2).1.2 →
       Enrollment.student_id (Enrollment.dataValues (Listed.enrollment r))
       ≠ sid).
Proof.
  split.
  - intros now tr b db e db' c
      (s & p & Hs & Hp & _ & Hv & -> & _ & Hfresh & _)%call_ok_inv.
    exists s, p. split; [done|]. split; [done|]. split.
    + apply findAll_elem_of. exists (Enrollment.id e), (derived b p). simpl.
      rewrite lookup_insert_eq, Hs, Hp. split; [done|].
      destruct e as [k w]. simpl in *. by subst w.
    + simpl. unfold EnrollmentQuery.findAll.
      rewrite !length_fmap, !length_map_to_list. simpl.
      by apply map_size_insert_None.
  - intros sid db r (k & v & Hkv & ->)%findAll_elem_of Hsid. simpl in Hsid.
    apply (delete_not_enrolled sid db). by exists k, v.
Qed.

Lemma index_after_calls_witness :
  call Store Sample.newYear Sample.up Sample.body Sample.db0
  = (ok Sample.e1, Sample.db1, Sample.calls1)
  ∧ ∃ s p,
       students Sample.db0 !! student_id Sample.body = Some s
       ∧ plans Sample.db0 !! plan_id Sample.body = Some p
       ∧ {| Listed.enrollment := Sample.e1;
            Listed.student :=
              Some (IncludedStudent.mk (student_id Sample.body)
                      (Student.name s) (Student.email s));
            Listed.plan :=
              Some (IncludedPlan.mk (plan_id Sample.body) (Plan.title p)
                      (Plan.duration p)) |} ∈ (index Sample.db1).1.2
       ∧ length (index Sample.db1).1.2 = S (length (index Sample.db0).1.2).
Proof.
  assert (call Store Sample.newYear Sample.up Sample.body Sample.db0
          = (ok Sample.e1, Sample.db1, Sample.calls1)) as H
    by (vm_compute; reflexivity).
  split; [exact H|].
  exact (proj1 index_after_calls Sample.newYear Sample.up Sample.body
           Sample.db0 Sample.e1 Sample.db1 Sample.calls1 H).
Defined.

(** ** Who is enrolled *)

Lemma enrolled_insert_new sid' k v db :
  enrollments db !! k = None →
  enrolled sid' (setEnrollments db (<[k := v]> (enrollments db)))
  ↔ enrolled sid' db ∨ sid' = Enrollment.student_id v.
Proof.
  intros Hfresh. split.
  - intros (i & w & Hiw & Hw). simpl in Hiw. rewrite lookup_insert in Hiw.
    case_decide; simplify_eq; [by right|]. left. by exists i, w.
  - intros [(i & w & Hiw & Hw)| ->].
    + exists i, w. simpl. rewrite lookup_insert_ne; [done|]. congruence.
    + exists k, v. simpl. by rewrite lookup_insert_eq.
Qed.

(** X21: the students who are enrolled change with the calls as follows,
    however the calls end: [update] changes nothing in who is enrolled;
    [store] adds the student of the body when it creates an enrollment and
    nobody otherwise; [delete] takes out its student and nobody else. *)
Theorem enrolled_after sid' db :
  (∀ now req,
     enrolled sid' (handle (EnrollmentController.update now req) db).1.2
     ↔ enrolled sid' db)
  ∧ (∀ now tr b,
       enrolled sid' (call Store now tr b db).1.2
       ↔ enrolled sid' db
         ∨ (sid' = student_id b
            ∧ ∃ v, CallEnrollmentCreate v ∈ (call Store now tr b db).2))
  ∧ (∀ sid,
       enrolled sid' (handle (EnrollmentController.delete sid) db).1.2
       ↔ enrolled sid' db ∧ sid' ≠ sid).
Proof.
  split; [|split].
  - intros now [|b]; [done|].
    change (handle (EnrollmentController.update now (WellFormed b)) db)
      with (call Update now (λ _, true) b db).
    rewrite update_eq. simpl.
    destruct (rowOfStudent _ _) as [old|] eqn:Hold; [|done].
    repeat case_match; try done. simpl.
    apply rowOfStudent_Some in Hold as [Hrow Hsid].
    split; intros (i & w & Hiw & Hw); simpl in *.
    + rewrite lookup_alter in Hiw. case_decide as Hi; [|by exists i, w].
      subst i. rewrite Hrow in Hiw. simpl in Hiw. injection Hiw as <-.
      exists (Enrollment.id old), (Enrollment.dataValues old).
      split; [done|]. simpl in Hw. congruence.
    + destruct (decide (Enrollment.id old = i)) as [<-|Hi].
      * eexists (Enrollment.id old), _. simpl.
        rewrite lookup_alter, decide_True, Hrow by done. simpl.
        split; [done|]. simpl. congruence.
      * exists i, w. simpl. rewrite lookup_alter, decide_False by done. done.
  - intros now tr b. rewrite store_eq. simpl.
    destruct (rowOfStudent _ _) eqn:Hrow;
      [split; [tauto|intros [?|[_ [v Hv]]]; [done|simpl in Hv; in_calls Hv]]|].
    destruct (students db !! _);
      [|split; [tauto|intros [?|[_ [v Hv]]]; [done|simpl in Hv; in_calls Hv]]].
    destruct (plans db !! _) as [p|];
      [|split; [tauto|intros [?|[_ [v Hv]]]; [done|simpl in Hv; in_calls Hv]]].
    destruct (isBefore _ _);
      [split; [tauto|intros [?|[_ [v Hv]]]; [done|simpl in Hv; in_calls Hv]]|].
    destruct (tr _); simpl;
      rewrite (enrolled_insert_new sid' _ (derived b p) db (nextKey_fresh _));
      simpl; (split; intros [?|?]; [by left|right|by left|right; tauto]);
      (split; [done|]); exists (derived b p);
      do 3 apply list_elem_of_further; apply list_elem_of_here.
  - intros sid. rewrite delete_eq.
    destruct (rowOfStudent _ _) eqn:Hrow; simpl.
    + split.
      * intros (i & w & Hiw & Hw). simpl in Hiw.
        apply destroy_lookup in Hiw as [Hiw Hne].
        split; [by exists i, w|congruence].
      * intros [(i & w & Hiw & Hw) Hne]. exists i, w. simpl.
        rewrite destroy_lookup. split; [|done]. split; [done|congruence].
    + split; [|tauto]. intros Hen. split; [done|]. intros ->.
      by apply rowOfStudent_not_enrolled in Hrow.
Qed.

Lemma enrolled_after_witness :
  (enrolled 8 (handle (EnrollmentController.update Sample.newYear
                         (WellFormed Demo.body8)) Demo.db).1.2
   ↔ enrolled 8 Demo.db)
  ∧ (enrolled 8 (call Store Sample.newYear Sample.up Demo.body7 Demo.db).1.2
     ↔ enrolled 8 Demo.db
       ∨ (8 = student_id Demo.body7
          ∧ ∃ v, CallEnrollmentCreate v
                 ∈ (call Store Sample.newYear Sample.up Demo.body7 Demo.db).2))
  ∧ (enrolled 8 (handle (EnrollmentController.delete 8) Demo.db).1.2
     ↔ enrolled 8 Demo.db ∧ 8 ≠ 8).
Proof.
  pose proof (enrolled_after 8 Demo.db) as (H1 & H2 & H3).
  split; [exact (H1 Sample.newYear (WellFormed Demo.body8))|].
  split; [exact (H2 Sample.newYear Sample.up Demo.body7)|exact (H3 8)].
Defined.
